(** * sad-go-telemetry: the telemetry facade and its two backends

    A shallow embedding of the Go package [telemetry]:
    - [open_telemetry.go], the streaming backend ([OpenTelemetry]);
    - [opentelemetry.go], the earlier streaming backend that reads the
      package-level flags ([LegacyOpenTelemetry]);
    - the flat backend ([AppInsightsTelemetry]);
    - backend selection ([Interface.go] and its earlier variant).

    The collaborators the package calls into (the tracing and metric
    SDK, the Application Insights client, the zap logger, the process
    environment) are not part of the package.  They are represented by a
    [World] that records every call the facade makes to them, so that a
    statement such as "no transport submission" is a statement about
    the calls recorded in the world. *)

From Stdlib Require Import ZArith Ascii String.
From stdpp Require Import base option list gmap strings pretty.

Local Open Scope string_scope.
Local Open Scope list_scope.
Local Open Scope Z_scope.

(** ** Go values *)

(** A non-nil [error]: either a plain message or the value built by
    [fmt.Errorf] with a [%w] verb, which keeps the wrapped error. *)
Inductive error_value : Type :=
  | errorString (s : string)
  | wrapError (msg : string) (err : error_value).

(** The interface type [error]; [None] is [nil]. *)
Definition error : Type := option error_value.

(** [err.Error()] on a non-nil error. *)
Definition Error (e : error_value) : string :=
  match e with
  | errorString s => s
  | wrapError msg _ => msg
  end.

(** The verb [%v] of package fmt applied to an [error]. *)
Definition fmt_v (err : error) : string :=
  match err with
  | None => "<nil>"
  | Some e => Error e
  end.

(** [strconv.FormatInt(n, 10)] and the verb [%d]. *)
Definition FormatInt (n : Z) : string := pretty n.

(** [time.Duration] is a count of nanoseconds. *)
Definition Duration : Type := Z.

(** [d.Milliseconds()]: integer division truncated toward zero. *)
Definition Milliseconds (d : Duration) : Z := Z.quot d 1000000.

(** A [float64] is carried by its IEEE-754 bit pattern
    ([math.Float64bits]).  The facade never computes with metric values,
    it forwards them. *)
Definition float64 : Type := Z.

(** The constant [1] used where a [float64] is expected. *)
Definition float64_1 : float64 := 4607182418800017408.

(** ** Package attribute *)

Inductive ValueType : Type := BOOL | INT64 | FLOAT64 | STRING | OTHER.

(** An [attribute.Value], by its type tag and by the two observations
    the facade makes of it: [Emit()] and [AsFloat64()]. *)
Record Value : Type := mkValue {
  vtype : ValueType;
  Emit : string;
  AsFloat64 : float64
}.

Record KeyValue : Type := mkKeyValue {
  Key : string;
  attrValue : Value
}.

Definition FormatBool (b : bool) : string := if b then "true" else "false".

Module attribute.
Definition StringValue (v : string) : Value := mkValue STRING v 0.
Definition Int64Value (v : Z) : Value :=
  mkValue INT64 (FormatInt v) (v mod 2 ^ 64).
Definition BoolValue (v : bool) : Value :=
  mkValue BOOL (FormatBool v) (if v then 1 else 0).

Definition String (k v : string) : KeyValue := mkKeyValue k (StringValue v).
Definition Int64 (k : string) (v : Z) : KeyValue := mkKeyValue k (Int64Value v).
Definition Int (k : string) (v : Z) : KeyValue := mkKeyValue k (Int64Value v).
Definition Bool (k : string) (v : bool) : KeyValue := mkKeyValue k (BoolValue v).
End attribute.

(** Keys of semconv v1.17.0 used by the facade. *)
Module semconv.
Definition HTTPMethodKey : string := "http.method".
Definition HTTPURLKey : string := "http.url".
Definition HTTPStatusCodeKey : string := "http.status_code".
End semconv.

(** ** Package codes *)

Module codes.
Inductive Code : Type := Unset | Error | Ok.
End codes.

(** ** Spans and contexts *)

(** The dynamic types a [trace.Span] interface value takes in this
    package: a span made by the SDK tracer (named by its index in the
    span store), the no-op span that [trace.SpanFromContext] returns when
    the context carries none, and the synthetic [*appInsightsSpan]. *)
Inductive Span : Type :=
  | recordingSpan (id : nat)
  | noopSpan
  | appInsightsSpan (name : string) (startTime : Z).

(** The interface type [trace.Span]; [None] is [nil]. *)
Definition trace_Span : Type := option Span.

(** A [context.Context], as the chain of values it was built from. *)
Inductive Context : Type :=
  | Background
  | WithValue (parent : Context) (key : string) (val : Span)
  | ContextWithSpan (parent : Context) (span : Span).

(** [trace.SpanFromContext]. *)
Fixpoint SpanFromContext (ctx : Context) : Span :=
  match ctx with
  | Background => noopSpan
  | WithValue parent _ _ => SpanFromContext parent
  | ContextWithSpan _ span => span
  end.

(** A call that a span accepted while it was recording.  A span is
    described by the calls it took, in order; what the SDK derives from
    them when it exports the span is outside the package. *)
Inductive SpanCall : Type :=
  | SetAttributes (kv : list KeyValue)
  | SetStatus (code : codes.Code) (description : string)
  | AddEvent (name : string) (attributes : list KeyValue)
  | RecordError (err : error_value) (attributes : list KeyValue).

Record SpanData : Type := mkSpanData {
  spanName : string;
  spanParent : Span;
  spanStart : Z;
  recording : bool;
  calls : list SpanCall
}.

(** ** Metric instruments *)

Inductive MeterCall : Type :=
  | Float64Counter (name : string)
  | Float64Gauge (name : string)
  | Float64ObservableGauge (name : string)
  | Add (name : string) (value : float64) (attributes : list KeyValue)
  | Record_ (name : string) (value : float64) (attributes : list KeyValue)
  | Observe (name : string) (value : float64) (attributes : list KeyValue).

(** ** The logger *)

Inductive Level : Type := InfoLevel | WarnLevel | ErrorLevel.

Inductive Field : Type :=
  | zap_String (key val : string)
  | zap_Bool (key : string) (val : bool)
  | zap_Error (err : error)
  | zap_Any (key : string) (val : list KeyValue).

Record Entry : Type := mkEntry {
  level : Level;
  message : string;
  fields : list Field
}.

(** ** Application Insights telemetry items *)

Module contracts.
Inductive SeverityLevel : Type :=
  Verbose | Information | Warning | Error | Critical.
End contracts.

Inductive Telemetry_item : Type :=
  | MetricTelemetry (name : string) (value : float64)
  | EventTelemetry (name : string) (properties : gmap string string)
  | TraceTelemetry (message : string) (severity : contracts.SeverityLevel)
      (properties : gmap string string)
  | RequestTelemetry (method url : string) (duration : Duration)
      (responseCode : string)
  | RemoteDependencyTelemetry (name dependencyType target : string)
      (success : bool) (duration : Duration)
  | AvailabilityTelemetry (name : string) (duration : Duration) (success : bool).

(** ** Providers *)

Inductive ProviderKind : Type := TracerProvider | MeterProvider.

(** An SDK provider.  [ShutdownResult] is what its [Shutdown] returns. *)
Record Provider : Type := mkProvider {
  kind : ProviderKind;
  endpoint : string;
  ShutdownResult : error
}.

(** ** The world *)

Record World : Type := mkWorld {
  now : Z;                                (* the clock, in nanoseconds *)
  spans : list SpanData;                  (* every span the tracer started *)
  exported : list nat;                    (* spans handed to the exporter *)
  meterCalls : list MeterCall;            (* calls into the meter *)
  tracked : list Telemetry_item;          (* items given to client.Track *)
  logged : list Entry;                    (* calls into logger.Log *)
  shutdowns : list ProviderKind;          (* provider shutdown attempts *)
  otel_TracerProvider : option Provider;  (* otel.SetTracerProvider *)
  otel_MeterProvider : option Provider    (* otel.SetMeterProvider *)
}.

Definition set_spans (f : list SpanData → list SpanData) (w : World) : World :=
  mkWorld (now w) (f (spans w)) (exported w) (meterCalls w) (tracked w)
    (logged w) (shutdowns w) (otel_TracerProvider w) (otel_MeterProvider w).
Definition set_exported (f : list nat → list nat) (w : World) : World :=
  mkWorld (now w) (spans w) (f (exported w)) (meterCalls w) (tracked w)
    (logged w) (shutdowns w) (otel_TracerProvider w) (otel_MeterProvider w).
Definition set_meterCalls (f : list MeterCall → list MeterCall) (w : World) : World :=
  mkWorld (now w) (spans w) (exported w) (f (meterCalls w)) (tracked w)
    (logged w) (shutdowns w) (otel_TracerProvider w) (otel_MeterProvider w).
Definition set_tracked (f : list Telemetry_item → list Telemetry_item) (w : World) : World :=
  mkWorld (now w) (spans w) (exported w) (meterCalls w) (f (tracked w))
    (logged w) (shutdowns w) (otel_TracerProvider w) (otel_MeterProvider w).
Definition set_logged (f : list Entry → list Entry) (w : World) : World :=
  mkWorld (now w) (spans w) (exported w) (meterCalls w) (tracked w)
    (f (logged w)) (shutdowns w) (otel_TracerProvider w) (otel_MeterProvider w).
Definition set_shutdowns (f : list ProviderKind → list ProviderKind) (w : World) : World :=
  mkWorld (now w) (spans w) (exported w) (meterCalls w) (tracked w)
    (logged w) (f (shutdowns w)) (otel_TracerProvider w) (otel_MeterProvider w).
Definition set_otel_TracerProvider (p : option Provider) (w : World) : World :=
  mkWorld (now w) (spans w) (exported w) (meterCalls w) (tracked w)
    (logged w) (shutdowns w) p (otel_MeterProvider w).
Definition set_otel_MeterProvider (p : option Provider) (w : World) : World :=
  mkWorld (now w) (spans w) (exported w) (meterCalls w) (tracked w)
    (logged w) (shutdowns w) (otel_TracerProvider w) p.

(** The world before the process has done anything, at time [t]. *)
Definition world0 (t : Z) : World := mkWorld t [] [] [] [] [] [] None None.

(** ** Go functions as state transformers that may panic *)

Inductive Result (A : Type) : Type :=
  | Return (a : A) (w : World)
  | Panic (reason : string).
Arguments Return {A} a w.
Arguments Panic {A} reason.

Definition Go (A : Type) : Type := World → Result A.

#[global] Instance Go_ret : MRet Go := λ A a w, Return a w.
#[global] Instance Go_bind : MBind Go := λ A B f m w,
  match m w with
  | Return a w' => f a w'
  | Panic r => Panic r
  end.

Definition get : Go World := λ w, Return w w.
Definition modify (f : World → World) : Go unit := λ w, Return tt (f w).
Definition panic {A} (reason : string) : Go A := λ _, Panic reason.

(** The run-time panic of a method call or field access through nil. *)
Definition nil_dereference : string :=
  "invalid memory address or nil pointer dereference".

(** [defer d] placed before [body]: [d] runs when [body] returns. *)
Definition defer {A} (d : Go unit) (body : Go A) : Go A :=
  a ← body; d;; mret a.

(** [go func() { body }()].  Only which items a detached task submits is
    observed, not when; the task is run where it is started. *)
Definition go (body : Go unit) : Go unit := body.

(** [for _, x := range l { body x }]. *)
Fixpoint for_range {A} (l : list A) (body : A → Go unit) : Go unit :=
  match l with
  | [] => mret tt
  | x :: l' => body x;; for_range l' body
  end.

(** The world a call leaves behind, when it returns. *)
Definition exec {A} (m : Go A) (w : World) : option World :=
  match m w with
  | Return _ w' => Some w'
  | Panic _ => None
  end.

(** ** The collaborators, as the calls the facade makes to them *)

(** [time.Now()] and [time.Since]. *)
Definition time_Now : Go Z := w ← get; mret (now w).
Definition time_Since (t : Z) : Go Duration := n ← time_Now; mret (n - t).

(** [logger.Log.Info], [logger.Log.Warn], [logger.Log.Error]. *)
Definition Log (lvl : Level) (msg : string) (fs : list Field) : Go unit :=
  modify (set_logged (λ l, l ++ [mkEntry lvl msg fs])).
Definition Log_Info := Log InfoLevel.
Definition Log_Warn := Log WarnLevel.
Definition Log_Error := Log ErrorLevel.

(** [client.Track(item)]. *)
Definition Track (item : Telemetry_item) : Go unit :=
  modify (set_tracked (λ l, l ++ [item])).

(** A method of a span.  Only a span of the SDK that has not ended yet
    takes the call; on every other span the call has no effect. *)
Definition on_recording (s : Span) (f : nat → SpanData → World → World) : Go unit :=
  modify (λ w,
    match s with
    | recordingSpan id =>
        match spans w !! id with
        | Some d => if recording d then f id d w else w
        | None => w
        end
    | _ => w
    end).

Definition accept (c : SpanCall) (d : SpanData) : SpanData :=
  mkSpanData (spanName d) (spanParent d) (spanStart d) (recording d) (calls d ++ [c]).

Definition ended (d : SpanData) : SpanData :=
  mkSpanData (spanName d) (spanParent d) (spanStart d) false (calls d).

Definition Span_call (s : Span) (c : SpanCall) : Go unit :=
  on_recording s (λ id d, set_spans (λ l, <[id := accept c d]> l)).

Definition Span_SetAttributes (s : Span) (kv : list KeyValue) : Go unit :=
  Span_call s (SetAttributes kv).
Definition Span_SetStatus (s : Span) (st : codes.Code * string) : Go unit :=
  Span_call s (SetStatus st.1 st.2).
Definition Span_AddEvent (s : Span) (name : string) (attrs : list KeyValue) : Go unit :=
  Span_call s (AddEvent name attrs).
Definition Span_RecordError (s : Span) (err : error_value) (attrs : list KeyValue) : Go unit :=
  Span_call s (RecordError err attrs).

(** [span.End()]: the span stops recording and is handed to the
    exporter, once. *)
Definition Span_End (s : Span) : Go unit :=
  on_recording s (λ id d w,
    set_exported (λ l, l ++ [id]) (set_spans (λ l, <[id := ended d]> l) w)).

(** Whether span [s] is recording in world [w]. *)
Definition recordingIn (w : World) (s : Span) : bool :=
  match s with
  | recordingSpan id =>
      match spans w !! id with
      | Some d => recording d
      | None => false
      end
  | _ => false
  end.

(** [span.IsRecording()]. *)
Definition Span_IsRecording (s : Span) : Go bool :=
  w ← get; mret (recordingIn w s).

Record Tracer : Type := mkTracer { tracerName : string }.

(** [tracer.Start(ctx, name)]: a new recording span, child of the span
    of [ctx], and the context that carries it. *)
Definition Tracer_Start (t : Tracer) (ctx : Context) (name : string)
    : Go (Context * trace_Span) :=
  w ← get;
  let id := length (spans w) in
  modify (set_spans (λ l,
    l ++ [mkSpanData name (SpanFromContext ctx) (now w) true []]));;
  mret (ContextWithSpan ctx (recordingSpan id), Some (recordingSpan id)).

(** A meter; [instrumentErr name] is the error, if any, that creating an
    instrument of that name returns. *)
Record Meter : Type := mkMeter {
  meterName : string;
  instrumentErr : string → error
}.

Definition Meter_call (c : MeterCall) : Go unit :=
  modify (set_meterCalls (λ l, l ++ [c])).

(** [meter.Float64Counter(name)] and its siblings: the request is made,
    and the instrument or the error comes back. *)
Definition Meter_instrument (m : Meter) (request : string → MeterCall)
    (name : string) : Go error :=
  Meter_call (request name);; mret (instrumentErr m name).

(** [provider.Shutdown(ctx)] through a pointer that may be nil.  The
    method of the SDK reads the fields of the provider, so through a nil
    pointer it faults; otherwise the attempt is made and its outcome
    comes back. *)
Definition Provider_Shutdown (p : option Provider) : Go error :=
  match p with
  | None => panic nil_dereference
  | Some p => modify (set_shutdowns (λ l, l ++ [kind p]));; mret (ShutdownResult p)
  end.

(** What the process finds around it: the environment variables, the
    host name, and the outcome of the SDK constructors. *)
Record Host : Type := mkHost {
  environ : gmap string string;
  Hostname : string * error;
  resource_New : error;
  otlptracegrpc_New : error;
  otlpmetricgrpc_New : error;
  instrument_New : string → error;
  tracerShutdown : error;
  meterShutdown : error
}.

(** [os.Getenv]. *)
Definition Getenv (h : Host) (key : string) : string :=
  default "" (environ h !! key).

(** [strconv.ParseBool], with the error dropped as the callers do. *)
Definition ParseBool (s : string) : bool :=
  if decide (s ∈ ["1"; "t"; "T"; "TRUE"; "true"; "True"]) then true else false.

(** ** open_telemetry.go *)

Module OpenTelemetry.

Record OpenTelemetry : Type := mkOpenTelemetry {
  tracer : Tracer;
  meter : Meter;
  traceProvider : option Provider;
  meterProvider : option Provider;
  traceEnabled : bool;
  metricsEnabled : bool
}.

Definition NewOpenTelemetry (h : Host)
    (serviceName traceEndpoint metricEndpoint : string)
    (traceEnabled metricsEnabled : bool) : Go (option OpenTelemetry * error) :=
  Log_Info "OpenTelemetry Configuration "
    [zap_String "serviceName" serviceName;
     zap_String "traceEndpoint" traceEndpoint;
     zap_String "metricEndpoint" metricEndpoint;
     zap_Bool "traceEnabled" traceEnabled;
     zap_Bool "metricsEnabled" metricsEnabled];;
  match resource_New h with
  | Some err =>
      mret (None, Some (wrapError ("failed to create resource: " +:+ Error err) err))
  | None =>
      tp ← (if traceEnabled then
              match otlptracegrpc_New h with
              | Some err =>
                  Log_Error "Failed to create OpenTelemetry exporter"
                    [zap_Error (Some err);
                     zap_String "endpoint" metricEndpoint;
                     zap_Bool "metricsEnabled" metricsEnabled];;
                  mret (inr (wrapError
                    ("failed to create metric exporter: " +:+ Error err) err))
              | None =>
                  let tp := mkProvider TracerProvider traceEndpoint (tracerShutdown h) in
                  modify (set_otel_TracerProvider (Some tp));;
                  mret (inl (Some tp))
              end
            else mret (inl None));
      match tp with
      | inr err => mret (None, Some err)
      | inl tp =>
          mp ← (if metricsEnabled then
                  match otlpmetricgrpc_New h with
                  | Some err =>
                      mret (inr (wrapError
                        ("failed to create metric exporter: " +:+ Error err) err))
                  | None =>
                      let mp := mkProvider MeterProvider metricEndpoint (meterShutdown h) in
                      modify (set_otel_MeterProvider (Some mp));;
                      mret (inl (Some mp))
                  end
                else mret (inl None));
          match mp with
          | inr err => mret (None, Some err)
          | inl mp =>
              let tracer := mkTracer serviceName in
              let meter := mkMeter serviceName (instrument_New h) in
              mret (Some (mkOpenTelemetry tracer meter tp mp
                            traceEnabled metricsEnabled), None)
          end
      end
  end.

Definition StartSpan (o : OpenTelemetry) (ctx : Context) (name : string)
    : Go (Context * trace_Span) :=
  if negb (traceEnabled o) then mret (ctx, None)
  else Tracer_Start (tracer o) ctx name.

Definition EndSpan (o : OpenTelemetry) (span : trace_Span) : Go unit :=
  match span with
  | Some s => Span_End s
  | None => mret tt
  end.

Definition AddEvent (o : OpenTelemetry) (span : trace_Span) (name : string)
    (attributes : list KeyValue) : Go unit :=
  match span with
  | Some s => Span_AddEvent s name attributes
  | None => mret tt
  end.

Definition RecordMetric (o : OpenTelemetry) (ctx : Context) (name : string)
    (value : float64) (attributes : list KeyValue) : Go unit :=
  if negb (metricsEnabled o) then mret tt
  else
    err ← Meter_instrument (meter o) Float64Counter name;
    match err with
    | Some e => Log_Error "Failed to create metric instrument" [zap_Error (Some e)]
    | None => Meter_call (Add name value attributes)
    end.

Definition RecordError (o : OpenTelemetry) (ctx : Context) (err : error)
    (attributes : list KeyValue) : Go unit :=
  if negb (traceEnabled o) then mret tt
  else
    match err with
    | None => mret tt
    | Some e =>
        let span := SpanFromContext ctx in
        r ← Span_IsRecording span;
        if (r : bool) then
          Span_RecordError span e attributes;;
          Span_SetStatus span (codes.Error, Error e)
        else mret tt
    end.

Definition IncrementCounter (o : OpenTelemetry) (ctx : Context) (name : string)
    (increment : float64) (attributes : list KeyValue) : Go unit :=
  RecordMetric o ctx name increment attributes.

Definition RecordGauge (o : OpenTelemetry) (ctx : Context) (name : string)
    (value : float64) (attributes : list KeyValue) : Go unit :=
  if negb (metricsEnabled o) then mret tt
  else
    err ← Meter_instrument (meter o) Float64Gauge name;
    match err with
    | Some e => Log_Error "Failed to create gauge instrument" [zap_Error (Some e)]
    | None => Meter_call (Record_ name value attributes)
    end.

Definition LogInfo (o : OpenTelemetry) (ctx : Context) (message : string)
    (attributes : list KeyValue) : Go unit :=
  Log_Info message [zap_Any "attributes" attributes].

Definition LogWarning (o : OpenTelemetry) (ctx : Context) (message : string)
    (attributes : list KeyValue) : Go unit :=
  Log_Warn message [zap_Any "attributes" attributes].

Definition LogError (o : OpenTelemetry) (ctx : Context) (message : string)
    (err : error) (attributes : list KeyValue) : Go unit :=
  Log_Error message [zap_Error err; zap_Any "attributes" attributes];;
  RecordError o ctx err attributes.

Definition httpStatusToSpanStatus (statusCode : Z) : codes.Code * string :=
  if decide (statusCode >= 400) then (codes.Error, "HTTP " +:+ FormatInt statusCode)
  else (codes.Ok, "").

(** A method called on a [trace.Span] that may be nil. *)
Definition deref (span : trace_Span) (f : Span → Go unit) : Go unit :=
  match span with
  | Some s => f s
  | None => panic nil_dereference
  end.

Definition TrackRequest (o : OpenTelemetry) (ctx : Context) (method url : string)
    (duration : Duration) (statusCode : Z) : Go unit :=
  if negb (traceEnabled o) then mret tt
  else
    '(ctx, span) ← StartSpan o ctx "HTTP Request";
    defer (EndSpan o span)
      (deref span (λ s, Span_SetAttributes s
         [attribute.String semconv.HTTPMethodKey method;
          attribute.String semconv.HTTPURLKey url;
          attribute.Int semconv.HTTPStatusCodeKey statusCode]);;
       deref span (λ s, Span_SetStatus s (httpStatusToSpanStatus statusCode));;
       deref span (λ s, Span_SetAttributes s
         [attribute.Int64 "http.duration_ms" (Milliseconds duration)])).

Definition Shutdown (o : OpenTelemetry) (ctx : Context) : Go error :=
  err ← match traceProvider o with
        | Some _ => Provider_Shutdown (traceProvider o)
        | None => mret None
        end;
  match meterProvider o with
  | Some _ =>
      mErr ← Provider_Shutdown (meterProvider o);
      match mErr with
      | Some m =>
          mret (Some (wrapError
            ("trace: " +:+ fmt_v err +:+ ", metric: " +:+ Error m) m))
      | None => mret err
      end
  | None => mret err
  end.

Section ranging.
(** The order in which [for k, v := range properties] visits the map;
the language leaves it open. *)
Variable range : gmap string string → list (string * string).

Definition PostEvent (o : OpenTelemetry) (name : string)
    (properties : gmap string string) : Go unit :=
  if negb (traceEnabled o) then mret tt
  else
    let attrs := (λ kv, attribute.String kv.1 kv.2) <$> range properties in
    let span := SpanFromContext Background in
    r ← Span_IsRecording span;
    if (r : bool) then Span_AddEvent span name attrs else mret tt.

Definition PostTrace (o : OpenTelemetry) (message severity : string)
    (properties : gmap string string) : Go unit :=
  if negb (traceEnabled o) then mret tt
  else
    let attrs :=
      [attribute.String "message" message; attribute.String "severity" severity]
        ++ ((λ kv, attribute.String kv.1 kv.2) <$> range properties) in
    let span := SpanFromContext Background in
    r ← Span_IsRecording span;
    (if (r : bool) then Span_AddEvent span "Trace" attrs else mret tt);;
    Log_Info "Trace recorded" [zap_Any "attributes" attrs].
End ranging.

Definition TrackDependency (o : OpenTelemetry) (ctx : Context)
    (dependencyType target : string) (duration : Duration) (success : bool)
    : Go unit :=
  if negb (traceEnabled o) then mret tt
  else
    '(ctx, span) ← StartSpan o ctx "Dependency Call";
    defer (EndSpan o span)
      (deref span (λ s, Span_SetAttributes s
         [attribute.String "dependency.type" dependencyType;
          attribute.String "dependency.target" target;
          attribute.Int64 "dependency.duration_ms" (Milliseconds duration);
          attribute.Bool "dependency.success" success]);;
       if negb success then
         deref span (λ s, Span_SetStatus s (codes.Error, "Dependency call failed"))
       else mret tt).

Definition TrackAvailability (o : OpenTelemetry) (ctx : Context) (name : string)
    (duration : Duration) (success : bool) : Go unit :=
  if negb (metricsEnabled o) then mret tt
  else
    let attributes :=
      [attribute.String "availability.test" name;
       attribute.Int64 "availability.duration_ms" (Milliseconds duration);
       attribute.Bool "availability.success" success] in
    RecordMetric o ctx "availability.tests" float64_1 attributes.

Definition SetUser (o : OpenTelemetry) (ctx : Context) (id : string) : Go unit :=
  if negb (traceEnabled o) then mret tt
  else
    let span := SpanFromContext ctx in
    r ← Span_IsRecording span;
    if (r : bool) then Span_SetAttributes span [attribute.String "user.id" id]
    else mret tt.

Definition SetSession (o : OpenTelemetry) (ctx : Context) (id : string) : Go unit :=
  if negb (traceEnabled o) then mret tt
  else
    let span := SpanFromContext ctx in
    r ← Span_IsRecording span;
    if (r : bool) then Span_SetAttributes span [attribute.String "session.id" id]
    else mret tt.


End OpenTelemetry.

(** ** The package-level variables of the first version *)

Module telemetry.

(** The variables [serviceName], [traceEnabled], [metricsEnabled],
    [traceEndpoint] and [metricEndpoint] of the package. *)
Record vars : Type := mkVars {
  serviceName : string;
  traceEnabled : bool;
  metricsEnabled : bool;
  traceEndpoint : string;
  metricEndpoint : string
}.

(** The variables [tracer] and [meter] of the package. *)
Record instruments : Type := mkInstruments {
  tracer : Tracer;
  meter : Meter
}.

(** [initProvider].  The provider of a kind is registered when that
kind is enabled and its exporter could be built; an empty endpoint
stands for the default endpoint of the exporter. *)
Definition initProvider (h : Host) (pkg : vars) : Go error :=
  match resource_New h with
  | Some err => mret (Some err)
  | None =>
      r ← (if traceEnabled pkg then
             match otlptracegrpc_New h with
             | Some err => mret (Some err)
             | None =>
                 let tp := mkProvider TracerProvider (traceEndpoint pkg)
                             (tracerShutdown h) in
                 modify (set_otel_TracerProvider (Some tp));; mret None
             end
           else mret None);
      match r with
      | Some err => mret (Some err)
      | None =>
          if metricsEnabled pkg then
            match otlpmetricgrpc_New h with
            | Some err => mret (Some err)
            | None =>
                let mp := mkProvider MeterProvider (metricEndpoint pkg)
                            (meterShutdown h) in
                modify (set_otel_MeterProvider (Some mp));; mret None
            end
          else mret None
      end
  end.

Section functions.
Variable pkg : vars.
Variable ins : instruments.

Definition StartSpan (ctx : Context) (name : string) : Go (Context * trace_Span) :=
  if negb (traceEnabled pkg) then mret (ctx, None)
  else Tracer_Start (tracer ins) ctx name.

Definition EndSpan (span : trace_Span) : Go unit :=
  match span with
  | Some s => Span_End s
  | None => mret tt
  end.

Definition AddEvent (span : trace_Span) (name : string)
    (attributes : list KeyValue) : Go unit :=
  match span with
  | Some s => Span_AddEvent s name attributes
  | None => mret tt
  end.

Definition RecordMetric (ctx : Context) (name : string) (value : float64)
    (attributes : list KeyValue) : Go unit :=
  if negb (metricsEnabled pkg) then mret tt
  else
    err ← Meter_instrument (meter ins) Float64Counter name;
    match err with
    | Some e => Log_Error "Failed to create metric instrument" [zap_Error (Some e)]
    | None => Meter_call (Add name value attributes)
    end.
End functions.

(** [Shutdown] of the package: each registered provider of the SDK is
found by a type assertion on the global one, which fails when none was
registered. *)
Definition Shutdown (ctx : Context) : Go unit :=
  w ← get;
  match otel_TracerProvider w with
  | Some tp =>
      err ← Provider_Shutdown (Some tp);
      match err with
      | Some e => Log_Error "Error shutting down tracer provider" [zap_Error (Some e)]
      | None => mret tt
      end
  | None => mret tt
  end;;
  w ← get;
  match otel_MeterProvider w with
  | Some mp =>
      err ← Provider_Shutdown (Some mp);
      match err with
      | Some e => Log_Error "Error shutting down meter provider" [zap_Error (Some e)]
      | None => mret tt
      end
  | None => mret tt
  end.


End telemetry.

(** ** opentelemetry.go *)

Module LegacyOpenTelemetry.

Record OpenTelemetry : Type := mkOpenTelemetry {
  traceEnabled : bool;
  metricsEnabled : bool;
  tracer : Tracer;
  meter : Meter;
  traceProvider : option Provider;
  meterProvider : option Provider
}.

(** The providers are built into variables [tp] and [mp] declared with
    [:=] inside the two [if] blocks; the outer [tp] and [mp], which the
    struct receives, stay nil. *)
Definition newOpenTelemetry (h : Host)
    (serviceName traceEndpoint metricEndpoint : string)
    (traceEnabled metricsEnabled : bool) : Go (option OpenTelemetry * error) :=
  match resource_New h with
  | Some err => mret (None, Some err)
  | None =>
      let tp : option Provider := None in
      let mp : option Provider := None in
      r ← (if traceEnabled then
             match otlptracegrpc_New h with
             | Some err => mret (Some err)
             | None =>
                 let tp := mkProvider TracerProvider traceEndpoint (tracerShutdown h) in
                 modify (set_otel_TracerProvider (Some tp));; mret None
             end
           else mret None);
      match r with
      | Some err => mret (None, Some err)
      | None =>
          r ← (if metricsEnabled then
                 match otlpmetricgrpc_New h with
                 | Some err => mret (Some err)
                 | None =>
                     let mp := mkProvider MeterProvider metricEndpoint (meterShutdown h) in
                     modify (set_otel_MeterProvider (Some mp));; mret None
                 end
               else mret None);
          match r with
          | Some err => mret (None, Some err)
          | None =>
              let tracer := mkTracer serviceName in
              let meter := mkMeter serviceName (instrument_New h) in
              mret (Some (mkOpenTelemetry traceEnabled metricsEnabled
                            tracer meter tp mp), None)
          end
      end
  end.

Section methods.
(** The methods read the package-level flags, not the fields. *)
Variable pkg : telemetry.vars.

Definition RecordMetric (o : OpenTelemetry) (ctx : Context) (name : string)
    (value : float64) (attributes : list KeyValue) : Go unit :=
  if negb (telemetry.metricsEnabled pkg) then
    Log_Info "Failed to create metric instrument, metrics not enabled for this service" []
  else
    err ← Meter_instrument (meter o) Float64Counter name;
    match err with
    | Some e => Log_Error "Failed to create metric instrument" [zap_Error (Some e)]
    | None => Meter_call (Add name value attributes)
    end.

Definition IncrementCounter (o : OpenTelemetry) (ctx : Context) (name : string)
    (increment : float64) (attributes : list KeyValue) : Go unit :=
  RecordMetric o ctx name increment attributes.

Definition RecordGauge (o : OpenTelemetry) (ctx : Context) (name : string)
    (value : float64) (attributes : list KeyValue) : Go unit :=
  err ← Meter_instrument (meter o) Float64ObservableGauge name;
  match err with
  | Some e => Log_Error "Failed to create gauge instrument" [zap_Error (Some e)]
  | None => Meter_call (Observe name value attributes)
  end.

Definition Shutdown (o : OpenTelemetry) (ctx : Context) : Go unit :=
  err ← Provider_Shutdown (traceProvider o);
  match err with
  | Some e => Log_Error "Error shutting down trace provider" [zap_Error (Some e)]
  | None => mret tt
  end;;
  err ← Provider_Shutdown (meterProvider o);
  match err with
  | Some e => Log_Error "Error shutting down meter provider" [zap_Error (Some e)]
  | None => mret tt
  end.
Definition StartSpan (o : OpenTelemetry) (ctx : Context) (name : string)
    : Go (Context * trace_Span) :=
  if negb (telemetry.traceEnabled pkg) then
    Log_Info "Failed to start span, trace not enabled for this service" [];;
    mret (ctx, None)
  else Tracer_Start (tracer o) ctx name.

Definition EndSpan (o : OpenTelemetry) (span : trace_Span) : Go unit :=
  match span with
  | Some s => Span_End s
  | None => mret tt
  end.

Definition AddEvent (o : OpenTelemetry) (span : trace_Span) (name : string)
    (attributes : list KeyValue) : Go unit :=
  match span with
  | Some s => Span_AddEvent s name attributes
  | None => mret tt
  end.

Definition LogInfo (o : OpenTelemetry) (ctx : Context) (message : string)
    (attributes : list KeyValue) : Go unit :=
  Log_Info message [zap_Any "attributes" attributes].

Definition LogWarning (o : OpenTelemetry) (ctx : Context) (message : string)
    (attributes : list KeyValue) : Go unit :=
  Log_Warn message [zap_Any "attributes" attributes].

Definition LogError (o : OpenTelemetry) (ctx : Context) (message : string)
    (err : error) (attributes : list KeyValue) : Go unit :=
  Log_Error message [zap_Error err; zap_Any "attributes" attributes].

Definition TrackRequest (o : OpenTelemetry) (ctx : Context) (method url : string)
    (duration : Duration) (responseCode : string) : Go unit :=
  let attributes :=
    [attribute.String "http.method" method;
     attribute.String "http.url" url;
     attribute.Int64 "http.duration_ms" (Milliseconds duration);
     attribute.String "http.status_code" responseCode] in
  RecordMetric o ctx "http.requests" float64_1 attributes.

Definition TrackDependency (o : OpenTelemetry) (ctx : Context)
    (dependencyType target : string) (duration : Duration) (success : bool)
    : Go unit :=
  let attributes :=
    [attribute.String "dependency.type" dependencyType;
     attribute.String "dependency.target" target;
     attribute.Int64 "dependency.duration_ms" (Milliseconds duration);
     attribute.Bool "dependency.success" success] in
  RecordMetric o ctx "dependency.calls" float64_1 attributes.

Definition TrackAvailability (o : OpenTelemetry) (ctx : Context) (name : string)
    (duration : Duration) (success : bool) : Go unit :=
  let attributes :=
    [attribute.String "availability.test" name;
     attribute.Int64 "availability.duration_ms" (Milliseconds duration);
     attribute.Bool "availability.success" success] in
  RecordMetric o ctx "availability.tests" float64_1 attributes.

Definition SetUser (o : OpenTelemetry) (ctx : Context) (id : string) : Go unit :=
  let span := SpanFromContext ctx in
  r ← Span_IsRecording span;
  if (r : bool) then Span_SetAttributes span [attribute.String "user.id" id]
  else mret tt.

Definition SetSession (o : OpenTelemetry) (ctx : Context) (id : string) : Go unit :=
  let span := SpanFromContext ctx in
  r ← Span_IsRecording span;
  if (r : bool) then Span_SetAttributes span [attribute.String "session.id" id]
  else mret tt.

(** The order in which [for k, v := range properties] visits the map. *)
Variable range : gmap string string → list (string * string).

(** The attributes are built and dropped. *)
Definition PostEvent (o : OpenTelemetry) (name : string)
    (properties : gmap string string) : Go unit :=
  let attrs := (λ kv, attribute.String kv.1 kv.2) <$> range properties in
  mret tt.

Definition PostTrace (o : OpenTelemetry) (message severity : string)
    (properties : gmap string string) : Go unit :=
  let attrs :=
    [attribute.String "message" message]
      ++ ((λ kv, attribute.String kv.1 kv.2) <$> range properties) in
  Log_Info "Event recorded" [zap_Any "attributes" attrs].

End methods.

End LegacyOpenTelemetry.

(** ** The flat backend *)

Module AppInsightsTelemetry.

Definition APPINSIGHTS_INSTRUMENTATIONKEY_DEFAULT : string :=
  "6b57af63-7a39-4834-9d3d-405ddb07a51a".

(** [appinsights.NewTelemetryClient(iKey)]. *)
Record TelemetryClient : Type := NewTelemetryClient { iKey : string }.

Record AppInsightsTelemetry : Type := mkAppInsightsTelemetry {
  client : TelemetryClient;
  hostname : string;
  serviceName : string;
  traceEnabled : bool;
  telemetryEnabled : bool
}.

Definition newAppInsightsTelemetry (h : Host)
    : Go (option AppInsightsTelemetry * error) :=
  iKey ← (let iKey := Getenv h "APPINSIGHTS_INSTRUMENTATIONKEY" in
          if decide (iKey = "") then
            Log_Info "APPINSIGHTS_INSTRUMENTATIONKEY is not set, using default instrumentation key" [];;
            mret APPINSIGHTS_INSTRUMENTATIONKEY_DEFAULT
          else mret iKey);
  let client := NewTelemetryClient iKey in
  hostname ← (let '(hostname, err) := Hostname h in
              match err with
              | Some e =>
                  Log_Warn "Error retrieving hostname" [zap_Error (Some e)];;
                  mret "unkw"
              | None => mret hostname
              end);
  serviceName ← (let serviceName := Getenv h "SERVICE_NAME" in
                 if decide (serviceName = "") then
                   Log_Info "SERVICE_NAME is not set, using Melina as default" [];;
                   mret "Melina"
                 else mret serviceName);
  let traceEnabled := ParseBool (Getenv h "APPINSIGHTS_TRACE_ENABLED") in
  let telemetryEnabled := ParseBool (Getenv h "APPINSIGHTS_ENABLED") in
  mret (Some (mkAppInsightsTelemetry client hostname serviceName
                traceEnabled telemetryEnabled), None).

Definition PostMetrics (ai : AppInsightsTelemetry) (name : string)
    (value : float64) : Go unit :=
  if telemetryEnabled ai then go (Track (MetricTelemetry name value))
  else mret tt.

(** The loop copies every entry of [properties] into the fresh, empty
    [Properties] map of the item. *)
Definition PostEvent (ai : AppInsightsTelemetry) (name : string)
    (properties : gmap string string) : Go unit :=
  if telemetryEnabled ai then go (Track (EventTelemetry name properties))
  else mret tt.

Definition PostTrace (ai : AppInsightsTelemetry) (message : string)
    (severity : contracts.SeverityLevel) (properties : gmap string string)
    : Go unit :=
  if traceEnabled ai && telemetryEnabled ai then
    go (let newMessage := serviceName ai +:+ "_" +:+ hostname ai +:+ "_" +:+ message in
        Track (TraceTelemetry newMessage severity properties))
  else mret tt.

Definition StartSpan (ai : AppInsightsTelemetry) (ctx : Context) (name : string)
    : Go (Context * trace_Span) :=
  startTime ← time_Now;
  let span := appInsightsSpan name startTime in
  mret (WithValue ctx "appinsights_span" span, Some span).

Definition EndSpan (ai : AppInsightsTelemetry) (span : trace_Span) : Go unit :=
  match span with
  | Some (appInsightsSpan name startTime) =>
      duration ← time_Since startTime;
      PostEvent ai name {[ "duration_ms" := FormatInt (Milliseconds duration) ]}
  | _ => mret tt
  end.

(** [properties := make(map[string]string)] filled by
    [properties[string(attr.Key)] = attr.Value.Emit()] over the
    attributes, in order. *)
Definition emitted (attributes : list KeyValue) : gmap string string :=
  foldl (λ properties attr, <[Key attr := Emit (attrValue attr)]> properties)
    ∅ attributes.

Definition AddEvent (ai : AppInsightsTelemetry) (span : trace_Span)
    (name : string) (attributes : list KeyValue) : Go unit :=
  let properties := emitted attributes in
  PostEvent ai name properties.

Definition RecordMetric (ai : AppInsightsTelemetry) (ctx : Context)
    (name : string) (value : float64) (attributes : list KeyValue) : Go unit :=
  PostMetrics ai name value;;
  for_range attributes (λ attr,
    PostMetrics ai (name +:+ "." +:+ Key attr) (AsFloat64 (attrValue attr))).

Definition IncrementCounter (ai : AppInsightsTelemetry) (ctx : Context)
    (name : string) (increment : float64) (attributes : list KeyValue) : Go unit :=
  RecordMetric ai ctx name increment attributes.

Definition RecordGauge (ai : AppInsightsTelemetry) (ctx : Context)
    (name : string) (value : float64) (attributes : list KeyValue) : Go unit :=
  RecordMetric ai ctx name value attributes.

Definition LogInfo (ai : AppInsightsTelemetry) (ctx : Context)
    (message : string) (attributes : list KeyValue) : Go unit :=
  let properties := emitted attributes in
  PostTrace ai message contracts.Information properties.

Definition LogWarning (ai : AppInsightsTelemetry) (ctx : Context)
    (message : string) (attributes : list KeyValue) : Go unit :=
  let properties := emitted attributes in
  PostTrace ai message contracts.Warning properties.

Definition LogError (ai : AppInsightsTelemetry) (ctx : Context)
    (message : string) (err : error) (attributes : list KeyValue) : Go unit :=
  let properties := emitted attributes in
  match err with
  | None => panic nil_dereference
  | Some e =>
      let properties := <["error" := Error e]> properties in
      PostTrace ai message contracts.Error properties
  end.

Definition TrackRequest (ai : AppInsightsTelemetry) (ctx : Context)
    (method url : string) (duration : Duration) (responseCode : string)
    : Go unit :=
  if telemetryEnabled ai then
    Track (RequestTelemetry method url duration responseCode)
  else mret tt.

Definition TrackAvailability (ai : AppInsightsTelemetry) (ctx : Context)
    (name : string) (duration : Duration) (success : bool) : Go unit :=
  if telemetryEnabled ai then
    Track (AvailabilityTelemetry name duration success)
  else mret tt.


End AppInsightsTelemetry.

(** ** The first Application Insights client, and [init] *)

Module TelemetryAppInsights.

Record TelemetryAppInsights : Type := mkTelemetryAppInsights {
  appInsights : option AppInsightsTelemetry.TelemetryClient;
  serviceName : string;
  hostName : string;
  traceEnabled : bool;
  telemetryEnabled : bool;
  client : option AppInsightsTelemetry.TelemetryClient
}.

Definition NewTelemetryAppInsights (appInsightsKey hostName serviceName : string)
    (traceEnabled telemetryEnabled : bool)
    : Go (option TelemetryAppInsights * error) :=
  appInsights ← (if decide (appInsightsKey ≠ "") then
                   mret (Some (AppInsightsTelemetry.NewTelemetryClient appInsightsKey))
                 else
                   Log_Warn "APPINSIGHTS_INSTRUMENTATIONKEY is not set, Application Insights functionality will be limited" [];;
                   mret None);
  let client := AppInsightsTelemetry.NewTelemetryClient appInsightsKey in
  mret (Some (mkTelemetryAppInsights appInsights serviceName hostName
                traceEnabled telemetryEnabled (Some client)), None).

(** [&TelemetryAppInsights{}]: every field has its zero value. *)
Definition GetTelemetryAppInsights : TelemetryAppInsights :=
  mkTelemetryAppInsights None "" "" false false None.

(** [tai.client.Track(item)] through a client that may be nil. *)
Definition client_Track (c : option AppInsightsTelemetry.TelemetryClient)
    (item : Telemetry_item) : Go unit :=
  match c with
  | Some _ => Track item
  | None => panic nil_dereference
  end.

Definition PostMetrics (tai : TelemetryAppInsights) (name : string)
    (value : float64) : Go unit :=
  if telemetryEnabled tai then
    go (client_Track (client tai) (MetricTelemetry name value))
  else mret tt.

Definition PostEvent (tai : TelemetryAppInsights) (name : string)
    (properties : gmap string string) : Go unit :=
  if telemetryEnabled tai then
    go (client_Track (client tai) (EventTelemetry name properties))
  else mret tt.

Definition PostTrace (tai : TelemetryAppInsights) (message : string)
    (severity : contracts.SeverityLevel) (properties : gmap string string)
    : Go unit :=
  if traceEnabled tai && telemetryEnabled tai then
    go (let newMessage := serviceName tai +:+ "_" +:+ hostName tai +:+ "_" +:+ message in
        client_Track (client tai) (TraceTelemetry newMessage severity properties))
  else mret tt.

End TelemetryAppInsights.

Module Init.

(** [init] of the first version: the package variables it assigns. *)
Definition init (h : Host) : Go (telemetry.vars * telemetry.instruments) :=
  serviceName ← (let serviceName := Getenv h "SERVICE_NAME" in
                 if decide (serviceName = "") then
                   Log_Warn "SERVICE_NAME is not set, using 'unknown-service' as default" [];;
                   mret "unknown-service"
                 else mret serviceName);
  let traceEnabled := bool_decide (Getenv h "OTEL_TRACE_ENABLED" = "true") in
  let metricsEnabled := bool_decide (Getenv h "OTEL_METRICS_ENABLED" = "true") in
  let traceEndpoint := Getenv h "OTEL_EXPORTER_OTLP_TRACES_ENDPOINT" in
  let metricEndpoint := Getenv h "OTEL_EXPORTER_OTLP_METRICS_ENDPOINT" in
  let instrument := Getenv h "INSTRUMENT" in
  let pkg := telemetry.mkVars serviceName traceEnabled metricsEnabled
               traceEndpoint metricEndpoint in
  err ← telemetry.initProvider h pkg;
  match err with
  | Some e => Log_Error "Failed to initialize OpenTelemetry provider" [zap_Error (Some e)]
  | None => mret tt
  end;;
  let tracer := mkTracer serviceName in
  let meter := mkMeter serviceName (instrument_New h) in
  (if decide (instrument = "APPINSIGHTS") then
     let iKey := Getenv h "APPINSIGHTS_INSTRUMENTATIONKEY" in
     hostName ← (let '(hostName, err) := Hostname h in
                 match err with
                 | Some e =>
                     Log_Warn "Error retrieving hostname: %v" [zap_Error (Some e)];;
                     Log_Warn "Setting hostname to unkw" [];;
                     mret "unkw"
                 | None => mret hostName
                 end);
     TelemetryAppInsights.NewTelemetryAppInsights iKey hostName serviceName
       traceEnabled metricsEnabled;;
     mret tt
   else mret tt);;
  mret (pkg, telemetry.mkInstruments tracer meter).

End Init.


(** ** Interface.go: backend selection *)

Module Interface.

Definition TelemetryType : Type := string.
Definition TelemetryTypeOpenTelemetry : TelemetryType := "opentelemetry".
Definition TelemetryTypeAppInsights : TelemetryType := "appinsights".

Definition NewTelemetry (h : Host)
    : Go (option OpenTelemetry.OpenTelemetry * error) :=
  let telemetryType := Getenv h "TELEMETRY_TYPE" in
  let serviceName := Getenv h "SERVICE_NAME" in
  let serviceName :=
    if decide (serviceName = "") then "unknown-service" else serviceName in
  if decide (telemetryType ∈ ["opentelemetry"; "otel"; ""]) then
    let traceEnabled := bool_decide (Getenv h "OTEL_TRACE_ENABLED" = "true") in
    let metricsEnabled := bool_decide (Getenv h "OTEL_METRICS_ENABLED" = "true") in
    let traceEndpoint := Getenv h "OTEL_EXPORTER_OTLP_TRACES_ENDPOINT" in
    let metricEndpoint := Getenv h "OTEL_EXPORTER_OTLP_METRICS_ENDPOINT" in
    OpenTelemetry.NewOpenTelemetry h serviceName traceEndpoint metricEndpoint
      traceEnabled metricsEnabled
  else
    mret (None, Some (errorString ("unknown telemetry type: " +:+ telemetryType))).

Section lower.
(** [strings.ToLower]. *)
Variable ToLower : string → string.

Definition getTelemetryType (h : Host) : TelemetryType :=
  let telemetryType := Getenv h "TELEMETRY_TYPE" in
  if decide (telemetryType = "") then TelemetryTypeOpenTelemetry
  else
    let lowered := ToLower telemetryType in
    if decide (lowered ∈ ["opentelemetry"; "otel"]) then
      TelemetryTypeOpenTelemetry
    else if decide (lowered ∈ ["appinsights"; "applicationinsights"]) then
      TelemetryTypeAppInsights
    else TelemetryTypeOpenTelemetry.
End lower.

End Interface.

(** ** The earlier backend selection, with both backends *)

Module LegacyInterface.

Definition TelemetryType : Type := string.
Definition TelemetryTypeOpenTelemetry : TelemetryType := "opentelemetry".
Definition TelemetryTypeAppInsights : TelemetryType := "appinsights".

(** The dynamic type of the [Telemetry] value that is returned. *)
Inductive Telemetry : Type :=
  | otel (o : LegacyOpenTelemetry.OpenTelemetry)
  | appinsights (ai : AppInsightsTelemetry.AppInsightsTelemetry).

Section lower.
(** [strings.ToLower]. *)
Variable ToLower : string → string.

Definition getTelemetryType (h : Host) : TelemetryType :=
  let telemetryType := Getenv h "TELEMETRY_TYPE" in
  if decide (telemetryType = "") then TelemetryTypeOpenTelemetry
  else
    let lowered := ToLower telemetryType in
    if decide (lowered ∈ ["opentelemetry"; "otel"]) then
      TelemetryTypeOpenTelemetry
    else if decide (lowered ∈ ["appinsights"; "applicationinsights"]) then
      TelemetryTypeAppInsights
    else TelemetryTypeOpenTelemetry.

Definition NewTelemetry (h : Host) : Go (option Telemetry * error) :=
  let telemetryType := getTelemetryType h in
  if decide (telemetryType = TelemetryTypeOpenTelemetry) then
    let traceEnabled := bool_decide (Getenv h "OTEL_TRACE_ENABLED" = "true") in
    let metricsEnabled := bool_decide (Getenv h "OTEL_METRICS_ENABLED" = "true") in
    let serviceName := Getenv h "SERVICE_NAME" in
    let serviceName :=
      if decide (serviceName = "") then "unknown-service" else serviceName in
    let traceEndpoint := Getenv h "OTEL_EXPORTER_OTLP_TRACES_ENDPOINT" in
    let metricEndpoint := Getenv h "OTEL_EXPORTER_OTLP_METRICS_ENDPOINT" in
    r ← LegacyOpenTelemetry.newOpenTelemetry h serviceName traceEndpoint
          metricEndpoint traceEnabled metricsEnabled;
    mret (otel <$> r.1, r.2)
  else if decide (telemetryType = TelemetryTypeAppInsights) then
    r ← AppInsightsTelemetry.newAppInsightsTelemetry h;
    mret (appinsights <$> r.1, r.2)
  else
    mret (None, Some (errorString ("unknown telemetry type: " +:+ telemetryType))).
End lower.

End LegacyInterface.

(** [strings.ToLower] on ASCII text: the letters [A] to [Z] are mapped
    to [a] to [z], every other byte is kept. *)
Definition ascii_lower (c : ascii) : ascii :=
  let n := nat_of_ascii c in
  if decide (65 ≤ n ≤ 90)%nat then ascii_of_nat (n + 32) else c.

Fixpoint ascii_ToLower (s : string) : string :=
  match s with
  | EmptyString => EmptyString
  | String c s' => String (ascii_lower c) (ascii_ToLower s')
  end.

(** A host with the given environment, on which every constructor of the
    SDK succeeds and every shutdown is clean. *)
Definition quiet_host (env : gmap string string) : Host :=
  mkHost env ("host-1", None) None None None (λ _, None) None None.

(** ** Observations and concrete backends *)

(** The number of submissions made to the transports so far: spans
    handed to the exporter, calls into the meter, and items given to the
    Application Insights client. *)
Definition submissions (w : World) : nat :=
  (length (exported w) + length (meterCalls w) + length (tracked w))%nat.

(** The streaming backend as [Interface.NewTelemetry] builds it on a
    quiet host for the given flags. *)
Definition streaming (traceEnabled metricsEnabled : bool)
    : OpenTelemetry.OpenTelemetry :=
  OpenTelemetry.mkOpenTelemetry (mkTracer "svc") (mkMeter "svc" (λ _, None))
    (if traceEnabled then Some (mkProvider TracerProvider "" None) else None)
    (if metricsEnabled then Some (mkProvider MeterProvider "" None) else None)
    traceEnabled metricsEnabled.

(** The earlier streaming backend as its constructor builds it. *)
Definition legacy (traceEnabled metricsEnabled : bool)
    : LegacyOpenTelemetry.OpenTelemetry :=
  LegacyOpenTelemetry.mkOpenTelemetry traceEnabled metricsEnabled
    (mkTracer "svc") (mkMeter "svc" (λ _, None)) None None.

(** The package-level variables for the given flags. *)
Definition package (traceEnabled metricsEnabled : bool) : telemetry.vars :=
  telemetry.mkVars "svc" traceEnabled metricsEnabled "" "".

(** The flat backend for the given flags. *)
Definition flat (traceEnabled telemetryEnabled : bool)
    : AppInsightsTelemetry.AppInsightsTelemetry :=
  AppInsightsTelemetry.mkAppInsightsTelemetry
    (AppInsightsTelemetry.NewTelemetryClient "ikey") "host-1" "svc"
    traceEnabled telemetryEnabled.

(** The span that [TrackRequest] leaves behind, ended. *)
Definition request_span (ctx : Context) (method url : string)
    (duration : Duration) (statusCode : Z) (start : Z) : SpanData :=
  mkSpanData "HTTP Request" (SpanFromContext ctx) start false
    [SetAttributes [attribute.String "http.method" method;
                    attribute.String "http.url" url;
                    attribute.Int "http.status_code" statusCode];
     SetStatus (OpenTelemetry.httpStatusToSpanStatus statusCode).1
               (OpenTelemetry.httpStatusToSpanStatus statusCode).2;
     SetAttributes [attribute.Int64 "http.duration_ms" (Milliseconds duration)]].

(** A call of a method of the streaming backend, with its arguments. *)
Inductive Call : Type :=
  | call_StartSpan (ctx : Context) (name : string)
  | call_EndSpan (span : trace_Span)
  | call_AddEvent (span : trace_Span) (name : string) (attributes : list KeyValue)
  | call_PostEvent (name : string) (properties : gmap string string)
  | call_RecordMetric (ctx : Context) (name : string) (value : float64)
      (attributes : list KeyValue)
  | call_RecordError (ctx : Context) (err : error) (attributes : list KeyValue)
  | call_IncrementCounter (ctx : Context) (name : string) (increment : float64)
      (attributes : list KeyValue)
  | call_RecordGauge (ctx : Context) (name : string) (value : float64)
      (attributes : list KeyValue)
  | call_LogInfo (ctx : Context) (message : string) (attributes : list KeyValue)
  | call_LogWarning (ctx : Context) (message : string) (attributes : list KeyValue)
  | call_LogError (ctx : Context) (message : string) (err : error)
      (attributes : list KeyValue)
  | call_TrackRequest (ctx : Context) (method url : string) (duration : Duration)
      (statusCode : Z)
  | call_TrackDependency (ctx : Context) (dependencyType target : string)
      (duration : Duration) (success : bool)
  | call_TrackAvailability (ctx : Context) (name : string) (duration : Duration)
      (success : bool)
  | call_SetUser (ctx : Context) (id : string)
  | call_SetSession (ctx : Context) (id : string)
  | call_PostTrace (message severity : string) (properties : gmap string string)
  | call_Shutdown (ctx : Context).

(** The call made on [o], its results dropped. *)
Definition perform (range : gmap string string → list (string * string))
    (o : OpenTelemetry.OpenTelemetry) (c : Call) : Go unit :=
  match c with
  | call_StartSpan ctx name => OpenTelemetry.StartSpan o ctx name;; mret tt
  | call_EndSpan span => OpenTelemetry.EndSpan o span
  | call_AddEvent span name attrs => OpenTelemetry.AddEvent o span name attrs
  | call_PostEvent name properties => OpenTelemetry.PostEvent range o name properties
  | call_RecordMetric ctx name value attrs =>
      OpenTelemetry.RecordMetric o ctx name value attrs
  | call_RecordError ctx err attrs => OpenTelemetry.RecordError o ctx err attrs
  | call_IncrementCounter ctx name value attrs =>
      OpenTelemetry.IncrementCounter o ctx name value attrs
  | call_RecordGauge ctx name value attrs =>
      OpenTelemetry.RecordGauge o ctx name value attrs
  | call_LogInfo ctx message attrs => OpenTelemetry.LogInfo o ctx message attrs
  | call_LogWarning ctx message attrs => OpenTelemetry.LogWarning o ctx message attrs
  | call_LogError ctx message err attrs =>
      OpenTelemetry.LogError o ctx message err attrs
  | call_TrackRequest ctx method url duration statusCode =>
      OpenTelemetry.TrackRequest o ctx method url duration statusCode
  | call_TrackDependency ctx dependencyType target duration success =>
      OpenTelemetry.TrackDependency o ctx dependencyType target duration success
  | call_TrackAvailability ctx name duration success =>
      OpenTelemetry.TrackAvailability o ctx name duration success
  | call_SetUser ctx id => OpenTelemetry.SetUser o ctx id
  | call_SetSession ctx id => OpenTelemetry.SetSession o ctx id
  | call_PostTrace message severity properties =>
      OpenTelemetry.PostTrace range o message severity properties
  | call_Shutdown ctx => OpenTelemetry.Shutdown o ctx;; mret tt
  end.

(** The calls of a list, one after the other. *)
Fixpoint perform_all (range : gmap string string → list (string * string))
    (o : OpenTelemetry.OpenTelemetry) (cs : list Call) : Go unit :=
  match cs with
  | [] => mret tt
  | c :: cs' => perform range o c;; perform_all range o cs'
  end.

(** No span was handed to the exporter twice, and every span that was
    handed over has ended. *)
Definition exported_once (w : World) : Prop :=
  NoDup (exported w)
  ∧ ∀ id, id ∈ exported w → ∃ d, spans w !! id = Some d ∧ recording d = false.

(** What a call may do to the spans: a span that has ended stays as it
    is, no span disappears, what was exported stays exported, and
    [exported_once] is kept. *)
Definition extends (w w' : World) : Prop :=
  (∀ id d, spans w !! id = Some d → recording d = false → spans w' !! id = Some d)
  ∧ (length (spans w) ≤ length (spans w'))%nat
  ∧ exported w `prefix_of` exported w'
  ∧ (exported_once w → exported_once w').

(** A computation that returns from every world, extends it, and
    returns a value with property [Q]. *)
Definition sound {A} (m : Go A) (Q : A → Prop) : Prop :=
  ∀ w, ∃ a w', m w = Return a w' ∧ extends w w' ∧ Q a.


(** ** Evaluation on concrete inputs *)

Example FormatInt_150 : FormatInt 150 = "150".
Proof. reflexivity. Qed.

Example Milliseconds_150ms : Milliseconds 150000000 = 150.
Proof. reflexivity. Qed.

Example httpStatusToSpanStatus_404 :
  OpenTelemetry.httpStatusToSpanStatus 404 = (codes.Error, "HTTP 404").
Proof. reflexivity. Qed.

Example httpStatusToSpanStatus_200 :
  OpenTelemetry.httpStatusToSpanStatus 200 = (codes.Ok, "").
Proof. reflexivity. Qed.

Example getTelemetryType_upper :
  Interface.getTelemetryType ascii_ToLower
    (quiet_host {[ "TELEMETRY_TYPE" := "AppInsights" ]}) = "appinsights".
Proof. vm_compute. reflexivity. Qed.

Example getTelemetryType_unknown :
  Interface.getTelemetryType ascii_ToLower
    (quiet_host {[ "TELEMETRY_TYPE" := "jaeger" ]}) = "opentelemetry".
Proof. vm_compute. reflexivity. Qed.

(** ** Lists of spans *)

Lemma lookup_snoc {A} (l : list A) (x : A) : (l ++ [x]) !! length l = Some x.
Proof. by apply list_lookup_middle. Qed.

Lemma insert_snoc {A} (l : list A) (x y : A) :
  <[length l := y]> (l ++ [x]) = l ++ [y].
Proof.
  replace (length l) with (length l + 0)%nat by lia.
  by rewrite insert_app_r.
Qed.

(** ** Spans: what a call does to the world *)

Ltac run := unfold mbind, mret, Go_bind, Go_ret, modify, get, panic, defer, go.

Lemma Span_call_recording id d c w :
  spans w !! id = Some d → recording d = true →
  Span_call (recordingSpan id) c w =
    Return tt (set_spans (λ l, <[id := accept c d]> l) w).
Proof.
  intros Hd Hr. unfold Span_call, on_recording. run. by rewrite Hd, Hr.
Qed.

Lemma Span_call_not_recording s c w :
  recordingIn w s = false → Span_call s c w = Return tt w.
Proof.
  unfold Span_call, on_recording, recordingIn. run.
  destruct s as [id| |]; try done.
  destruct (spans w !! id) as [d|]; [|done]. by intros ->.
Qed.

Lemma Span_End_recording id d w :
  spans w !! id = Some d → recording d = true →
  Span_End (recordingSpan id) w =
    Return tt (set_exported (λ l, l ++ [id])
                 (set_spans (λ l, <[id := ended d]> l) w)).
Proof.
  intros Hd Hr. unfold Span_End, on_recording. run. by rewrite Hd, Hr.
Qed.

Lemma Span_End_not_recording s w :
  recordingIn w s = false → Span_End s w = Return tt w.
Proof.
  unfold Span_End, on_recording, recordingIn. run.
  destruct s as [id| |]; try done.
  destruct (spans w !! id) as [d|]; [|done]. by intros ->.
Qed.

(** A span that has ended is not recording any more. *)
Lemma Span_End_stops s w :
  ∃ w1, Span_End s w = Return tt w1 ∧ recordingIn w1 s = false.
Proof.
  destruct (recordingIn w s) eqn:Hrec.
  - destruct s as [id| |]; try done. simpl in Hrec.
    destruct (spans w !! id) as [d|] eqn:Hd; [|done].
    eexists. split; [by apply Span_End_recording|].
    simpl. rewrite list_lookup_insert_eq; [done|].
    by eapply lookup_lt_Some.
  - exists w. split; [by apply Span_End_not_recording | done].
Qed.

(** Ending a span hands at most one span to the exporter and makes no
    other submission. *)
Lemma Span_End_exports s w w1 :
  Span_End s w = Return tt w1 →
  exported w1 = exported w ++ (if recordingIn w s
                                then match s with recordingSpan id => [id] | _ => [] end
                                else [])
  ∧ meterCalls w1 = meterCalls w ∧ tracked w1 = tracked w.
Proof.
  destruct (recordingIn w s) eqn:Hrec.
  - destruct s as [id| |]; try done. simpl in Hrec.
    destruct (spans w !! id) as [d|] eqn:Hd; [|done].
    rewrite (Span_End_recording id d) by done. by intros [= <-].
  - rewrite Span_End_not_recording by done. intros [= <-].
    by rewrite app_nil_r.
Qed.

(** ** C1: starting a span while tracing is disabled *)

(** C1, as the code has it.  On the streaming backend, when
    trace-enabled is false, [StartSpan] returns the context it was given
    and a nil span, and [EndSpan] and [AddEvent] on a nil span leave the
    world as it is.  The flat backend does not consult trace-enabled:
    [StartSpan] always returns a derived context and a synthetic span,
    without any submission; [EndSpan] on a nil span leaves the world as
    it is; [AddEvent] does not look at the span and submits one event
    exactly when telemetry-enabled is true. *)
Theorem StartSpan_trace_disabled
    (o : OpenTelemetry.OpenTelemetry)
    (ai : AppInsightsTelemetry.AppInsightsTelemetry)
    (ctx : Context) (name : string) (w : World)
    (Hoff : OpenTelemetry.traceEnabled o = false) :
  OpenTelemetry.StartSpan o ctx name w = Return (ctx, None) w
  ∧ (∀ w', OpenTelemetry.EndSpan o None w' = Return tt w')
  ∧ (∀ w' ev attrs, OpenTelemetry.AddEvent o None ev attrs w' = Return tt w')
  ∧ AppInsightsTelemetry.StartSpan ai ctx name w =
      Return (WithValue ctx "appinsights_span" (appInsightsSpan name (now w)),
              Some (appInsightsSpan name (now w))) w
  ∧ (∀ w', AppInsightsTelemetry.EndSpan ai None w' = Return tt w')
  ∧ (∀ w' span ev attrs,
       AppInsightsTelemetry.AddEvent ai span ev attrs w' =
         Return tt
           (if AppInsightsTelemetry.telemetryEnabled ai
            then set_tracked
                   (λ l, l ++ [EventTelemetry ev (AppInsightsTelemetry.emitted attrs)]) w'
            else w')).
Proof.
  repeat split.
  - unfold OpenTelemetry.StartSpan. by rewrite Hoff.
  - intros w' span ev attrs.
    unfold AppInsightsTelemetry.AddEvent, AppInsightsTelemetry.PostEvent.
    by destruct (AppInsightsTelemetry.telemetryEnabled ai).
Qed.

Lemma StartSpan_trace_disabled_witness :
  OpenTelemetry.StartSpan (streaming false true) Background "op" (world0 0)
    = Return (Background, None) (world0 0).
Proof.
  exact (proj1 (StartSpan_trace_disabled (streaming false true) (flat false true)
                  Background "op" (world0 0) eq_refl)).
Defined.

(** C1 as stated fails on the flat backend: with trace-enabled false and
    telemetry-enabled true, [StartSpan] returns neither the context it
    was given nor a nil span, and [AddEvent] on a nil span makes one
    submission. *)
Lemma StartSpan_flat_ignores_trace_flag :
  AppInsightsTelemetry.traceEnabled (flat false true) = false
  ∧ AppInsightsTelemetry.StartSpan (flat false true) Background "op" (world0 0)
      ≠ Return (Background, None) (world0 0)
  ∧ submissions <$>
      exec (AppInsightsTelemetry.AddEvent (flat false true) None "ev" []) (world0 0)
    = Some 1%nat.
Proof. repeat split. intros H. discriminate H. Qed.

(** ** C2: closing a span twice *)

Lemma StartSpan_enabled o ctx name w :
  OpenTelemetry.traceEnabled o = true →
  OpenTelemetry.StartSpan o ctx name w =
    Return (ContextWithSpan ctx (recordingSpan (length (spans w))),
            Some (recordingSpan (length (spans w))))
      (set_spans (λ l, l ++ [mkSpanData name (SpanFromContext ctx) (now w) true []]) w).
Proof. intros H. unfold OpenTelemetry.StartSpan. by rewrite H. Qed.

Lemma EndSpan_streaming_idempotent o span w :
  ∃ w1, OpenTelemetry.EndSpan o span w = Return tt w1
        ∧ OpenTelemetry.EndSpan o span w1 = Return tt w1.
Proof.
  destruct span as [s|]; simpl.
  - destruct (Span_End_stops s w) as (w1 & H1 & Hrec).
    exists w1. split; [done|]. by apply Span_End_not_recording.
  - by exists w.
Qed.

(** C2, as the code has it.  On the streaming backend [EndSpan] never
    faults and a second [EndSpan] on the same span leaves the world as
    the first one left it; for a span obtained from [StartSpan] the first
    close hands exactly that span to the exporter.  [EndSpan] on a nil
    span leaves the world as it is on both backends.  On the flat backend
    every [EndSpan] on a synthetic span submits one event when
    telemetry-enabled is true, the second close like the first, and
    nothing when it is false. *)
Theorem EndSpan_twice
    (o : OpenTelemetry.OpenTelemetry)
    (ai : AppInsightsTelemetry.AppInsightsTelemetry)
    (span : trace_Span) (ctx : Context) (name : string) (start : Z) (w : World) :
  (∃ w1, OpenTelemetry.EndSpan o span w = Return tt w1
         ∧ OpenTelemetry.EndSpan o span w1 = Return tt w1)
  ∧ (OpenTelemetry.traceEnabled o = true →
     ∃ ctx' s w0 w1,
       OpenTelemetry.StartSpan o ctx name w = Return (ctx', Some s) w0
       ∧ OpenTelemetry.EndSpan o (Some s) w0 = Return tt w1
       ∧ exported w1 = exported w ++ [length (spans w)]
       ∧ submissions w1 = S (submissions w)
       ∧ OpenTelemetry.EndSpan o (Some s) w1 = Return tt w1)
  ∧ OpenTelemetry.EndSpan o None w = Return tt w
  ∧ AppInsightsTelemetry.EndSpan ai None w = Return tt w
  ∧ AppInsightsTelemetry.EndSpan ai (Some (appInsightsSpan name start)) w =
      Return tt
        (if AppInsightsTelemetry.telemetryEnabled ai
         then set_tracked
                (λ l, l ++ [EventTelemetry name
                   {[ "duration_ms" := FormatInt (Milliseconds (now w - start)) ]}]) w
         else w).
Proof.
  split; [apply EndSpan_streaming_idempotent|].
  split; [|split; [done|split; [done|]]].
  - intros Hon. rewrite StartSpan_enabled by done.
    set (d := mkSpanData name (SpanFromContext ctx) (now w) true []).
    set (id := length (spans w)).
    set (w0 := set_spans (λ l, l ++ [d]) w).
    assert (Hd : spans w0 !! id = Some d) by apply lookup_snoc.
    do 4 eexists. split; [done|].
    split; [by apply (Span_End_recording id d)|].
    split; [done|].
    split.
    + unfold submissions. simpl. rewrite length_app. simpl. lia.
    + apply Span_End_not_recording. simpl.
      unfold id. by rewrite insert_snoc, lookup_snoc.
  - unfold AppInsightsTelemetry.EndSpan, AppInsightsTelemetry.PostEvent. run.
    unfold time_Since, time_Now. run.
    by destruct (AppInsightsTelemetry.telemetryEnabled ai).
Qed.

Lemma EndSpan_twice_witness :
  ∃ ctx' s w0 w1,
    OpenTelemetry.StartSpan (streaming true true) Background "op" (world0 0)
      = Return (ctx', Some s) w0
    ∧ OpenTelemetry.EndSpan (streaming true true) (Some s) w0 = Return tt w1
    ∧ exported w1 = exported (world0 0) ++ [length (spans (world0 0))]
    ∧ submissions w1 = S (submissions (world0 0))
    ∧ OpenTelemetry.EndSpan (streaming true true) (Some s) w1 = Return tt w1.
Proof.
  exact (proj1 (proj2 (EndSpan_twice (streaming true true) (flat true true)
                         None Background "op" 0 (world0 0))) eq_refl).
Defined.

(** C2 as stated fails on the flat backend: with telemetry-enabled true,
    closing the span obtained from [StartSpan] twice submits the event of
    the span twice. *)
Lemma EndSpan_flat_twice_submits_twice :
  exec ('(_, span) ← AppInsightsTelemetry.StartSpan (flat true true) Background "op";
        AppInsightsTelemetry.EndSpan (flat true true) span;;
        AppInsightsTelemetry.EndSpan (flat true true) span) (world0 0)
  = Some (mkWorld 0 [] [] []
            [EventTelemetry "op" {[ "duration_ms" := "0" ]};
             EventTelemetry "op" {[ "duration_ms" := "0" ]}]
            [] [] None None).
Proof. vm_compute. reflexivity. Qed.

(** ** What [RecordError] does *)

Lemma RecordError_recording o ctx e attrs w id d :
  OpenTelemetry.traceEnabled o = true →
  SpanFromContext ctx = recordingSpan id →
  spans w !! id = Some d → recording d = true →
  OpenTelemetry.RecordError o ctx (Some e) attrs w =
    Return tt
      (set_spans (λ l, <[id := accept (SetStatus codes.Error (Error e))
                                 (accept (RecordError e attrs) d)]> l) w).
Proof.
  intros Hon Hctx Hd Hr. unfold OpenTelemetry.RecordError.
  rewrite Hon, Hctx. simpl. unfold Span_IsRecording. run. simpl.
  rewrite Hd, Hr.
  unfold Span_RecordError, Span_SetStatus.
  rewrite Hd, Hr. simpl.
  rewrite (Span_call_recording id (accept (RecordError e attrs) d)).
  - unfold set_spans. simpl. by rewrite list_insert_insert_eq.
  - simpl. apply list_lookup_insert_eq. by eapply lookup_lt_Some.
  - done.
Qed.

Lemma RecordError_idle o ctx err attrs w :
  OpenTelemetry.traceEnabled o = false ∨ err = None
    ∨ recordingIn w (SpanFromContext ctx) = false →
  OpenTelemetry.RecordError o ctx err attrs w = Return tt w.
Proof.
  intros H. unfold OpenTelemetry.RecordError.
  destruct (OpenTelemetry.traceEnabled o); [|done]. simpl.
  destruct err as [e|]; [|done].
  unfold Span_IsRecording. run.
  destruct H as [H|[H|H]]; [done..|]. by rewrite H.
Qed.

(** [RecordError] always returns, and touches nothing but the spans. *)
Lemma RecordError_frame o ctx err attrs w :
  ∃ w1, OpenTelemetry.RecordError o ctx err attrs w = Return tt w1
        ∧ w1 = set_spans (λ _, spans w1) w.
Proof.
  destruct err as [e|];
    [|exists w; split; [apply RecordError_idle; auto | by destruct w]].
  destruct (OpenTelemetry.traceEnabled o) eqn:Hon;
    [|exists w; split; [apply RecordError_idle; auto | by destruct w]].
  destruct (recordingIn w (SpanFromContext ctx)) eqn:Hrec;
    [|exists w; split; [apply RecordError_idle; auto | by destruct w]].
  unfold recordingIn in Hrec.
  destruct (SpanFromContext ctx) as [id| |] eqn:Hctx; try done.
  destruct (spans w !! id) as [d|] eqn:Hd; [|done].
  eexists. split; [by apply (RecordError_recording o ctx e attrs w id d)|done].
Qed.

(** ** C3: log calls and the logger *)

(** C3, as the code has it.  On the streaming backend [LogInfo],
    [LogWarning] and [LogError] always return and always hand one entry
    with the message to the logger, whatever the flags.  On the flat
    backend [LogInfo], [LogWarning], and [LogError] with a non-nil error,
    never call the logger: they submit one trace item to the transport
    when trace-enabled and telemetry-enabled are both true, and do
    nothing otherwise. *)
Theorem Log_delivery
    (o : OpenTelemetry.OpenTelemetry)
    (ai : AppInsightsTelemetry.AppInsightsTelemetry)
    (ctx : Context) (message : string) (err : error)
    (attrs : list KeyValue) (w : World) :
  let gate := AppInsightsTelemetry.traceEnabled ai
              && AppInsightsTelemetry.telemetryEnabled ai in
  let text := AppInsightsTelemetry.serviceName ai +:+ "_"
              +:+ AppInsightsTelemetry.hostname ai +:+ "_" +:+ message in
  (∃ w1, OpenTelemetry.LogInfo o ctx message attrs w = Return tt w1
         ∧ logged w1 = logged w
             ++ [mkEntry InfoLevel message [zap_Any "attributes" attrs]])
  ∧ (∃ w1, OpenTelemetry.LogWarning o ctx message attrs w = Return tt w1
           ∧ logged w1 = logged w
               ++ [mkEntry WarnLevel message [zap_Any "attributes" attrs]])
  ∧ (∃ w1, OpenTelemetry.LogError o ctx message err attrs w = Return tt w1
           ∧ logged w1 = logged w
               ++ [mkEntry ErrorLevel message
                     [zap_Error err; zap_Any "attributes" attrs]])
  ∧ (∃ w1, AppInsightsTelemetry.LogInfo ai ctx message attrs w = Return tt w1
           ∧ logged w1 = logged w
           ∧ tracked w1 = tracked w
               ++ (if gate
                   then [TraceTelemetry text contracts.Information
                           (AppInsightsTelemetry.emitted attrs)]
                   else []))
  ∧ (∃ w1, AppInsightsTelemetry.LogWarning ai ctx message attrs w = Return tt w1
           ∧ logged w1 = logged w
           ∧ tracked w1 = tracked w
               ++ (if gate
                   then [TraceTelemetry text contracts.Warning
                           (AppInsightsTelemetry.emitted attrs)]
                   else []))
  ∧ (∀ e, err = Some e →
       ∃ w1, AppInsightsTelemetry.LogError ai ctx message err attrs w = Return tt w1
             ∧ logged w1 = logged w
             ∧ tracked w1 = tracked w
                 ++ (if gate
                     then [TraceTelemetry text contracts.Error
                             (<["error" := Error e]>
                                (AppInsightsTelemetry.emitted attrs))]
                     else [])).
Proof.
  intros gate text.
  split; [by eexists|]. split; [by eexists|]. split.
  - unfold OpenTelemetry.LogError, Log_Error, Log. run.
    destruct (RecordError_frame o ctx err attrs
                (set_logged (λ l, l ++ [mkEntry ErrorLevel message
                   [zap_Error err; zap_Any "attributes" attrs]]) w))
      as (w1 & Hrun & Hw1).
    exists w1. split; [done|]. by rewrite Hw1.
  - unfold AppInsightsTelemetry.LogInfo, AppInsightsTelemetry.LogWarning,
      AppInsightsTelemetry.LogError, AppInsightsTelemetry.PostTrace.
    fold gate. fold text.
    repeat split; try intros e ->;
      destruct gate; eexists; (split; [done|]); simpl;
      by rewrite ?app_nil_r.
Qed.

Lemma Log_delivery_witness :
  ∃ w1, AppInsightsTelemetry.LogError (flat true true) Background "failed"
          (Some (errorString "boom")) [] (world0 0) = Return tt w1
        ∧ logged w1 = logged (world0 0)
        ∧ tracked w1 = tracked (world0 0)
            ++ [TraceTelemetry "svc_host-1_failed" contracts.Error
                  (<["error" := "boom"]> (AppInsightsTelemetry.emitted []))].
Proof.
  exact (proj2 (proj2 (proj2 (proj2 (proj2
    (Log_delivery (streaming false false) (flat true true) Background "failed"
       (Some (errorString "boom")) [] (world0 0))))))
    (errorString "boom") eq_refl).
Defined.

(** C3 as stated fails on the flat backend: [LogInfo] leaves the logger
    untouched even with every flag on, and with the flags off [LogError]
    delivers the message nowhere at all. *)
Lemma Log_flat_bypasses_logger :
  logged <$> exec (AppInsightsTelemetry.LogInfo (flat true true) Background
                     "started" []) (world0 0) = Some []
  ∧ exec (AppInsightsTelemetry.LogError (flat false false) Background "failed"
            (Some (errorString "boom")) []) (world0 0) = Some (world0 0).
Proof. split; reflexivity. Qed.

(** ** C4: one item per tracked request *)

Lemma httpStatusToSpanStatus_ok statusCode :
  statusCode < 400 → OpenTelemetry.httpStatusToSpanStatus statusCode = (codes.Ok, "").
Proof. intros H. unfold OpenTelemetry.httpStatusToSpanStatus. case_decide; [lia|done]. Qed.

Lemma httpStatusToSpanStatus_error statusCode :
  400 ≤ statusCode →
  OpenTelemetry.httpStatusToSpanStatus statusCode
    = (codes.Error, "HTTP " +:+ FormatInt statusCode).
Proof. intros H. unfold OpenTelemetry.httpStatusToSpanStatus. case_decide; [done|lia]. Qed.

Lemma TrackRequest_enabled o ctx method url duration statusCode w :
  OpenTelemetry.traceEnabled o = true →
  OpenTelemetry.TrackRequest o ctx method url duration statusCode w =
    Return tt
      (set_exported (λ l, l ++ [length (spans w)])
         (set_spans (λ l, l ++ [request_span ctx method url duration statusCode (now w)])
            w)).
Proof.
  intros Hon. unfold OpenTelemetry.TrackRequest. rewrite Hon. simpl.
  change (Go_bind _ _ ?f ?m) with (mbind f m).
  unfold mbind at 1. unfold Go_bind at 1.
  rewrite StartSpan_enabled by done.
  set (id := length (spans w)).
  set (d0 := mkSpanData "HTTP Request" (SpanFromContext ctx) (now w) true []).
  unfold defer, OpenTelemetry.deref, OpenTelemetry.EndSpan.
  unfold Span_SetAttributes, Span_SetStatus. run.
  do 3 (erewrite Span_call_recording;
          [|simpl; unfold id; rewrite ?insert_snoc; apply lookup_snoc|done]).
  erewrite Span_End_recording;
    [|simpl; unfold id; rewrite ?insert_snoc; apply lookup_snoc|done].
  unfold set_exported, set_spans. simpl. unfold id.
  by rewrite !insert_snoc.
Qed.

(** C4, as the code has it.  [TrackRequest] produces one item when the
    gate of the backend is on and none when it is off, never two.  On the
    streaming backend the gate is trace-enabled and the item is one span
    named "HTTP Request", exported once, that took the attributes
    http.method, http.url, http.status_code and http.duration_ms and the
    status of [httpStatusToSpanStatus]: Ok below 400, Error with the
    description "HTTP <code>" from 400 on.  On the flat backend the gate
    is telemetry-enabled and the item is one request item. *)
Theorem TrackRequest_items
    (o : OpenTelemetry.OpenTelemetry)
    (ai : AppInsightsTelemetry.AppInsightsTelemetry)
    (ctx : Context) (method url : string) (duration : Duration)
    (statusCode : Z) (responseCode : string) (w : World) :
  (OpenTelemetry.traceEnabled o = true →
   ∃ w1, OpenTelemetry.TrackRequest o ctx method url duration statusCode w
           = Return tt w1
         ∧ spans w1 = spans w
             ++ [request_span ctx method url duration statusCode (now w)]
         ∧ exported w1 = exported w ++ [length (spans w)]
         ∧ submissions w1 = S (submissions w))
  ∧ (OpenTelemetry.traceEnabled o = false →
     OpenTelemetry.TrackRequest o ctx method url duration statusCode w
       = Return tt w)
  ∧ (statusCode < 400 →
     OpenTelemetry.httpStatusToSpanStatus statusCode = (codes.Ok, ""))
  ∧ (400 ≤ statusCode →
     OpenTelemetry.httpStatusToSpanStatus statusCode
       = (codes.Error, "HTTP " +:+ FormatInt statusCode))
  ∧ AppInsightsTelemetry.TrackRequest ai ctx method url duration responseCode w =
      Return tt
        (if AppInsightsTelemetry.telemetryEnabled ai
         then set_tracked
                (λ l, l ++ [RequestTelemetry method url duration responseCode]) w
         else w).
Proof.
  split; [|split; [|split; [|split]]].
  - intros Hon. eexists. split; [by apply TrackRequest_enabled|].
    split; [done|]. split; [done|].
    unfold submissions. simpl. rewrite length_app. simpl. lia.
  - intros Hoff. unfold OpenTelemetry.TrackRequest. by rewrite Hoff.
  - apply httpStatusToSpanStatus_ok.
  - apply httpStatusToSpanStatus_error.
  - unfold AppInsightsTelemetry.TrackRequest.
    by destruct (AppInsightsTelemetry.telemetryEnabled ai).
Qed.

Lemma TrackRequest_items_witness :
  (∃ w1, OpenTelemetry.TrackRequest (streaming true false) Background
           "GET" "/x" 150000000 404 (world0 7) = Return tt w1
         ∧ spans w1 = spans (world0 7)
             ++ [request_span Background "GET" "/x" 150000000 404 (now (world0 7))]
         ∧ exported w1 = exported (world0 7) ++ [length (spans (world0 7))]
         ∧ submissions w1 = S (submissions (world0 7)))
  ∧ OpenTelemetry.TrackRequest (streaming false true) Background
      "GET" "/x" 150000000 404 (world0 7) = Return tt (world0 7)
  ∧ OpenTelemetry.httpStatusToSpanStatus 200 = (codes.Ok, "")
  ∧ OpenTelemetry.httpStatusToSpanStatus 404
      = (codes.Error, "HTTP " +:+ FormatInt 404).
Proof.
  split; [|split; [|split]].
  - exact (proj1 (TrackRequest_items (streaming true false) (flat true true)
             Background "GET" "/x" 150000000 404 "404" (world0 7)) eq_refl).
  - exact (proj1 (proj2 (TrackRequest_items (streaming false true) (flat true true)
             Background "GET" "/x" 150000000 404 "404" (world0 7))) eq_refl).
  - apply (proj1 (proj2 (proj2 (TrackRequest_items (streaming true false)
             (flat true true) Background "GET" "/x" 150000000 200 "200" (world0 7))))).
    lia.
  - apply (proj1 (proj2 (proj2 (proj2 (TrackRequest_items (streaming true false)
             (flat true true) Background "GET" "/x" 150000000 404 "404" (world0 7)))))).
    lia.
Defined.

(** C4 as stated fails on the streaming backend: with trace-enabled
    false, [TrackRequest] produces no item at all. *)
Lemma TrackRequest_disabled_produces_nothing :
  OpenTelemetry.traceEnabled (streaming false true) = false
  ∧ exec (OpenTelemetry.TrackRequest (streaming false true) Background
            "GET" "/x" 150000000 200) (world0 0) = Some (world0 0)
  ∧ submissions (world0 0) = 0%nat.
Proof. repeat split. Qed.

(** ** C5: the backend selector *)

(** [getTelemetryType] yields one of the two backends, whatever the
    selector and whatever [strings.ToLower] does. *)
Lemma getTelemetryType_cases ToLower h :
  Interface.getTelemetryType ToLower h = "opentelemetry"
  ∨ Interface.getTelemetryType ToLower h = "appinsights".
Proof.
  unfold Interface.getTelemetryType. repeat case_decide; auto.
Qed.

(** A selector that is empty, or whose lower-case form is not a name of
    the flat backend, resolves to the streaming backend. *)
Lemma getTelemetryType_default ToLower h :
  Getenv h "TELEMETRY_TYPE" = ""
    ∨ ToLower (Getenv h "TELEMETRY_TYPE") ∉ ["appinsights"; "applicationinsights"] →
  Interface.getTelemetryType ToLower h = "opentelemetry".
Proof.
  unfold Interface.getTelemetryType. intros [H|H]; repeat case_decide; done.
Qed.

(** The earlier [NewTelemetry] resolves the selector through
    [getTelemetryType] and so never takes its [default] branch: it
    always returns, and the only errors it returns are those of the SDK
    constructors. *)
Lemma LegacyNewTelemetry_errors ToLower h w :
  ∃ r w1, LegacyInterface.NewTelemetry ToLower h w = Return r w1
          ∧ (r.2 = None ∨ r.2 = resource_New h ∨ r.2 = otlptracegrpc_New h
             ∨ r.2 = otlpmetricgrpc_New h).
Proof.
  unfold LegacyInterface.NewTelemetry.
  destruct (getTelemetryType_cases ToLower h) as [Ht|Ht];
    change (Interface.getTelemetryType ToLower h)
      with (LegacyInterface.getTelemetryType ToLower h) in Ht;
    rewrite Ht; simpl.
  - unfold LegacyOpenTelemetry.newOpenTelemetry. run.
    destruct (resource_New h) eqn:Hr; [do 2 eexists; split; [done|]; simpl; auto|].
    destruct (bool_decide _); [destruct (otlptracegrpc_New h) eqn:Hte|];
      try (do 2 eexists; split; [done|]; simpl; by auto);
      (destruct (bool_decide _); [destruct (otlpmetricgrpc_New h) eqn:Hme|]);
      do 2 eexists; (split; [done|]); simpl; auto.
  - unfold AppInsightsTelemetry.newAppInsightsTelemetry. run.
    repeat case_decide; destruct (Hostname h) as [? [?|]];
      do 2 eexists; (split; [done|]); simpl; auto.
Qed.

(** C5 at the inputs where [Interface.NewTelemetry] departs from it.
    [NewTelemetry] of Interface.go compares the raw selector with
    "opentelemetry", "otel" and the empty string; for every other
    selector it builds no backend and returns the error "unknown
    telemetry type: <selector>".  It does not call [getTelemetryType],
    which sits in the same file and resolves such a selector to the
    streaming backend. *)
Theorem NewTelemetry_unknown_type (h : Host) (w : World) :
  Getenv h "TELEMETRY_TYPE" ∉ ["opentelemetry"; "otel"; ""] →
  Interface.NewTelemetry h w =
    Return (None, Some (errorString ("unknown telemetry type: "
                                      +:+ Getenv h "TELEMETRY_TYPE"))) w.
Proof.
  intros H. unfold Interface.NewTelemetry. by case_decide.
Qed.

Lemma NewTelemetry_unknown_type_witness :
  Interface.NewTelemetry (quiet_host {[ "TELEMETRY_TYPE" := "jaeger" ]}) (world0 0)
  = Return (None, Some (errorString "unknown telemetry type: jaeger")) (world0 0).
Proof.
  etrans.
  - apply (NewTelemetry_unknown_type
             (quiet_host {[ "TELEMETRY_TYPE" := "jaeger" ]}) (world0 0)).
    apply (bool_decide_unpack _). vm_compute. exact I.
  - vm_compute. reflexivity.
Defined.

(** ** C6: shutdown *)

(** [Shutdown] of open_telemetry.go: every provider that exists gets its
    attempt, in order, whatever the earlier one returned; the result is
    nil when none fails, the error of the tracer provider when only that
    one fails, and one error that names both outcomes and wraps the
    error of the meter provider when that one fails. *)
Lemma Shutdown_attempts_and_aggregates o ctx w :
  let tErr := p ← OpenTelemetry.traceProvider o; ShutdownResult p in
  let mErr := p ← OpenTelemetry.meterProvider o; ShutdownResult p in
  ∃ w1,
    OpenTelemetry.Shutdown o ctx w =
      Return (match mErr with
              | Some m => Some (wrapError ("trace: " +:+ fmt_v tErr
                                           +:+ ", metric: " +:+ Error m) m)
              | None => tErr
              end) w1
    ∧ shutdowns w1 = shutdowns w
        ++ (kind <$> option_list (OpenTelemetry.traceProvider o))
        ++ (kind <$> option_list (OpenTelemetry.meterProvider o))
    ∧ submissions w1 = submissions w.
Proof.
  unfold OpenTelemetry.Shutdown, Provider_Shutdown. run.
  destruct (OpenTelemetry.traceProvider o) as [tp|],
           (OpenTelemetry.meterProvider o) as [mp|]; simpl.
  - destruct (ShutdownResult mp); eexists; (split; [done|]); simpl;
      by rewrite <- app_assoc.
  - by eexists.
  - destruct (ShutdownResult mp); by eexists.
  - eexists. split; [done|]. by rewrite app_nil_r.
Qed.

(** With no provider, [Shutdown] of open_telemetry.go returns nil and
    leaves the world as it is. *)
Lemma Shutdown_without_providers o ctx w :
  OpenTelemetry.traceProvider o = None → OpenTelemetry.meterProvider o = None →
  OpenTelemetry.Shutdown o ctx w = Return None w.
Proof. intros Ht Hm. unfold OpenTelemetry.Shutdown. by rewrite Ht, Hm. Qed.

(** The struct that [newOpenTelemetry] of opentelemetry.go returns
    carries no provider, whatever the flags. *)
Lemma newOpenTelemetry_providers_nil h sn te me tEn mEn w o err w1 :
  LegacyOpenTelemetry.newOpenTelemetry h sn te me tEn mEn w = Return (Some o, err) w1 →
  LegacyOpenTelemetry.traceProvider o = None
  ∧ LegacyOpenTelemetry.meterProvider o = None.
Proof.
  unfold LegacyOpenTelemetry.newOpenTelemetry. run.
  destruct (resource_New h); [done|].
  destruct tEn; [destruct (otlptracegrpc_New h)|]; try done;
    (destruct mEn; [destruct (otlpmetricgrpc_New h)|]); try done;
    by intros [= <- <- <-].
Qed.

(** C6 at the input where the code departs from it.  [Shutdown] of
    opentelemetry.go calls [Shutdown] on both provider fields without
    testing them for nil.  On every struct that [newOpenTelemetry]
    returns both fields are nil, so the call faults, in particular when
    tracing and metrics are both disabled and no provider was ever
    created. *)
Theorem LegacyShutdown_faults_without_providers (h : Host)
    (serviceName traceEndpoint metricEndpoint : string)
    (traceEnabled metricsEnabled : bool)
    (o : LegacyOpenTelemetry.OpenTelemetry) (ctx : Context) (w w1 w2 : World) :
  LegacyOpenTelemetry.newOpenTelemetry h serviceName traceEndpoint metricEndpoint
    traceEnabled metricsEnabled w = Return (Some o, None) w1 →
  LegacyOpenTelemetry.Shutdown o ctx w2 = Panic nil_dereference.
Proof.
  intros Hnew. apply newOpenTelemetry_providers_nil in Hnew as [Ht _].
  unfold LegacyOpenTelemetry.Shutdown. by rewrite Ht.
Qed.

Lemma LegacyShutdown_faults_without_providers_witness :
  LegacyOpenTelemetry.Shutdown (legacy false false) Background (world0 0)
  = Panic nil_dereference.
Proof.
  apply (LegacyShutdown_faults_without_providers
           (quiet_host ∅) "svc" "" "" false false (legacy false false)
           Background (world0 0) (world0 0) (world0 0)).
  reflexivity.
Defined.

(** With both providers present, [Shutdown] of opentelemetry.go attempts
    both, whatever the first returns, and makes no submission. *)
Lemma LegacyShutdown_attempts_both o ctx tp mp w :
  LegacyOpenTelemetry.traceProvider o = Some tp →
  LegacyOpenTelemetry.meterProvider o = Some mp →
  ∃ w1, LegacyOpenTelemetry.Shutdown o ctx w = Return tt w1
        ∧ shutdowns w1 = shutdowns w ++ [kind tp; kind mp]
        ∧ submissions w1 = submissions w.
Proof.
  intros Ht Hm. unfold LegacyOpenTelemetry.Shutdown, Provider_Shutdown.
  rewrite Ht, Hm. run. unfold Log_Error, Log. run.
  destruct (ShutdownResult tp), (ShutdownResult mp);
    eexists; (split; [done|]); simpl; by rewrite <- app_assoc.
Qed.

(** ** C7: metrics while metrics are disabled *)

(** On the streaming backend of open_telemetry.go the three calls leave
    the world as it is when metrics-enabled is false. *)
Lemma metrics_disabled_streaming o ctx name value attrs w :
  OpenTelemetry.metricsEnabled o = false →
  OpenTelemetry.RecordMetric o ctx name value attrs w = Return tt w
  ∧ OpenTelemetry.IncrementCounter o ctx name value attrs w = Return tt w
  ∧ OpenTelemetry.RecordGauge o ctx name value attrs w = Return tt w.
Proof.
  intros H.
  unfold OpenTelemetry.IncrementCounter, OpenTelemetry.RecordMetric,
    OpenTelemetry.RecordGauge.
  by rewrite H.
Qed.

(** On the flat backend the three calls leave the world as it is when
    telemetry-enabled is false. *)
Lemma metrics_disabled_flat ai ctx name value attrs w :
  AppInsightsTelemetry.telemetryEnabled ai = false →
  AppInsightsTelemetry.RecordMetric ai ctx name value attrs w = Return tt w
  ∧ AppInsightsTelemetry.IncrementCounter ai ctx name value attrs w = Return tt w
  ∧ AppInsightsTelemetry.RecordGauge ai ctx name value attrs w = Return tt w.
Proof.
  intros H.
  assert (Hrm : AppInsightsTelemetry.RecordMetric ai ctx name value attrs w
                = Return tt w).
  { unfold AppInsightsTelemetry.RecordMetric, AppInsightsTelemetry.PostMetrics.
    rewrite H. run.
    induction attrs as [|attr attrs IH]; [done|]. simpl. run. exact IH. }
  done.
Qed.

(** In opentelemetry.go [RecordMetric] and [IncrementCounter] call the
    meter for nothing when the package flag is false. *)
Lemma metrics_disabled_legacy_counter pkg o ctx name value attrs w :
  telemetry.metricsEnabled pkg = false →
  ∃ w1, LegacyOpenTelemetry.RecordMetric pkg o ctx name value attrs w = Return tt w1
        ∧ LegacyOpenTelemetry.IncrementCounter pkg o ctx name value attrs w
            = Return tt w1
        ∧ submissions w1 = submissions w.
Proof.
  intros H.
  unfold LegacyOpenTelemetry.IncrementCounter, LegacyOpenTelemetry.RecordMetric.
  rewrite H. by eexists.
Qed.

(** C7 at the input where the code departs from it.  [RecordGauge] of
    opentelemetry.go has no test of metrics-enabled, unlike [RecordMetric]
    next to it and unlike [RecordGauge] of open_telemetry.go: with the
    flag false, in the package variable and in the struct alike, it still
    asks the meter for the gauge and, when that succeeds, records the
    value. *)
Theorem LegacyRecordGauge_ignores_metrics_flag
    (pkg : telemetry.vars) (o : LegacyOpenTelemetry.OpenTelemetry)
    (ctx : Context) (name : string) (value : float64)
    (attrs : list KeyValue) (w : World) :
  telemetry.metricsEnabled pkg = false →
  LegacyOpenTelemetry.metricsEnabled o = false →
  instrumentErr (LegacyOpenTelemetry.meter o) name = None →
  ∃ w1, LegacyOpenTelemetry.RecordGauge o ctx name value attrs w = Return tt w1
        ∧ meterCalls w1 = meterCalls w
            ++ [Float64ObservableGauge name; Observe name value attrs]
        ∧ submissions w1 = S (S (submissions w)).
Proof.
  intros _ _ Herr.
  unfold LegacyOpenTelemetry.RecordGauge, Meter_instrument, Meter_call. run.
  rewrite Herr. eexists. split; [done|]. simpl. split.
  - by rewrite <- app_assoc.
  - unfold submissions. simpl. rewrite !length_app. simpl. lia.
Qed.

Lemma LegacyRecordGauge_ignores_metrics_flag_witness :
  ∃ w1, LegacyOpenTelemetry.RecordGauge (legacy false false) Background
          "queue.size" 42 [] (world0 0) = Return tt w1
        ∧ meterCalls w1 = meterCalls (world0 0)
            ++ [Float64ObservableGauge "queue.size"; Observe "queue.size" 42 []]
        ∧ submissions w1 = S (S (submissions (world0 0))).
Proof.
  apply (LegacyRecordGauge_ignores_metrics_flag (package false false)
           (legacy false false) Background "queue.size" 42 [] (world0 0));
    reflexivity.
Defined.

(** ** C8: [LogError] and the current span *)

(** C8.  On the streaming backend of open_telemetry.go [LogError] always
    returns.  When tracing is enabled, the error is non-nil and the span
    of the context is recording, that span takes the error as an event
    and then the status Error with the message of the error; no other
    span changes and nothing is exported.  When tracing is disabled, or
    the context has no recording span, spans and exports stay as they
    were. *)
Theorem LogError_marks_current_span
    (o : OpenTelemetry.OpenTelemetry) (ctx : Context) (message : string)
    (err : error) (attrs : list KeyValue) (w : World) :
  ∃ w1,
    OpenTelemetry.LogError o ctx message err attrs w = Return tt w1
    ∧ (∀ e, OpenTelemetry.traceEnabled o = true → err = Some e →
            recordingIn w (SpanFromContext ctx) = true →
         ∃ id d, SpanFromContext ctx = recordingSpan id
                 ∧ spans w !! id = Some d
                 ∧ spans w1 =
                     <[id := mkSpanData (spanName d) (spanParent d) (spanStart d) true
                               (calls d ++ [RecordError e attrs;
                                            SetStatus codes.Error (Error e)])]>
                       (spans w)
                 ∧ exported w1 = exported w)
    ∧ (OpenTelemetry.traceEnabled o = false
         ∨ recordingIn w (SpanFromContext ctx) = false →
       spans w1 = spans w ∧ exported w1 = exported w).
Proof.
  unfold OpenTelemetry.LogError, Log_Error, Log. run.
  set (w0 := set_logged _ w).
  assert (Hrec0 : recordingIn w0 (SpanFromContext ctx)
                  = recordingIn w (SpanFromContext ctx)) by done.
  destruct (OpenTelemetry.traceEnabled o) eqn:Hon;
    [|exists w0; split; [apply RecordError_idle; auto|];
      split; [intros; done | done]].
  destruct (recordingIn w (SpanFromContext ctx)) eqn:Hrec;
    [|exists w0; split; [apply RecordError_idle; auto|];
      split; [intros; done | done]].
  destruct err as [e|];
    [|exists w0; split; [apply RecordError_idle; auto|];
      split; [intros; done | intros [?|?]; done]].
  unfold recordingIn in Hrec.
  destruct (SpanFromContext ctx) as [id| |] eqn:Hctx; try done.
  destruct (spans w !! id) as [d|] eqn:Hd; [|done].
  eexists. split.
  - by apply (RecordError_recording o ctx e attrs w0 id d).
  - split; [|intros [?|?]; done].
    intros e' _ [= <-] _. exists id, d.
    repeat split; try done. simpl. unfold accept. simpl.
    by rewrite Hrec, <- app_assoc.
Qed.

Lemma LogError_marks_current_span_witness :
  ∃ w1,
    OpenTelemetry.LogError (streaming true false)
      (ContextWithSpan Background (recordingSpan 0)) "failed"
      (Some (errorString "boom")) []
      (mkWorld 5 [mkSpanData "op" noopSpan 1 true []] [] [] [] [] [] None None)
    = Return tt w1
    ∧ spans w1 = [mkSpanData "op" noopSpan 1 true
                    [RecordError (errorString "boom") [];
                     SetStatus codes.Error "boom"]]
    ∧ exported w1 = [].
Proof.
  destruct (LogError_marks_current_span (streaming true false)
              (ContextWithSpan Background (recordingSpan 0)) "failed"
              (Some (errorString "boom")) []
              (mkWorld 5 [mkSpanData "op" noopSpan 1 true []] [] [] [] [] [] None None))
    as (w1 & Hrun & Hmark & _).
  exists w1. split; [exact Hrun|].
  destruct (Hmark (errorString "boom") eq_refl eq_refl eq_refl)
    as (id & d & Hid & Hd & Hspans & Hexp).
  injection Hid as <-. injection Hd as <-.
  split; [exact Hspans | exact Hexp].
Defined.

(** ** C9: the default service name *)

(** The tracer and the meter of the streaming backend carry the service
    name the constructor was given. *)
Lemma NewOpenTelemetry_names h sn te me tEn mEn w o err w1 :
  OpenTelemetry.NewOpenTelemetry h sn te me tEn mEn w = Return (Some o, err) w1 →
  tracerName (OpenTelemetry.tracer o) = sn ∧ meterName (OpenTelemetry.meter o) = sn.
Proof.
  unfold OpenTelemetry.NewOpenTelemetry, Log_Info, Log_Error, Log. run.
  destruct (resource_New h); [done|].
  destruct tEn; [destruct (otlptracegrpc_New h)|]; try done;
    (destruct mEn; [destruct (otlpmetricgrpc_New h)|]); try done;
    by intros [= <- <- <-].
Qed.

Lemma legacy_constructor_names h sn te me tEn mEn w o err w1 :
  LegacyOpenTelemetry.newOpenTelemetry h sn te me tEn mEn w = Return (Some o, err) w1 →
  tracerName (LegacyOpenTelemetry.tracer o) = sn
  ∧ meterName (LegacyOpenTelemetry.meter o) = sn.
Proof.
  unfold LegacyOpenTelemetry.newOpenTelemetry. run.
  destruct (resource_New h); [done|].
  destruct tEn; [destruct (otlptracegrpc_New h)|]; try done;
    (destruct mEn; [destruct (otlpmetricgrpc_New h)|]); try done;
    by intros [= <- <- <-].
Qed.

(** The flat backend is always built, and with SERVICE_NAME unset or
    empty its service name is "Melina". *)
Lemma newAppInsightsTelemetry_default_name h w :
  Getenv h "SERVICE_NAME" = "" →
  ∃ ai w1, AppInsightsTelemetry.newAppInsightsTelemetry h w = Return (Some ai, None) w1
           ∧ AppInsightsTelemetry.serviceName ai = "Melina".
Proof.
  intros Hsn. unfold AppInsightsTelemetry.newAppInsightsTelemetry. run.
  rewrite Hsn. simpl.
  case_decide; destruct (Hostname h) as [? [?|]]; by do 2 eexists.
Qed.

(** C9, as the code has it.  With SERVICE_NAME unset or empty, the
    streaming backend is built for the service name "unknown-service"
    and the flat backend for the service name "Melina": [NewTelemetry]
    of Interface.go passes "unknown-service" to [NewOpenTelemetry], and
    whatever backend the earlier [NewTelemetry] returns carries the
    default of its kind. *)
Theorem ServiceName_default
    (ToLower : string → string) (h : Host) (w : World)
    (Hunset : Getenv h "SERVICE_NAME" = "") :
  (Getenv h "TELEMETRY_TYPE" ∈ ["opentelemetry"; "otel"; ""] →
   Interface.NewTelemetry h w =
     OpenTelemetry.NewOpenTelemetry h "unknown-service"
       (Getenv h "OTEL_EXPORTER_OTLP_TRACES_ENDPOINT")
       (Getenv h "OTEL_EXPORTER_OTLP_METRICS_ENDPOINT")
       (bool_decide (Getenv h "OTEL_TRACE_ENABLED" = "true"))
       (bool_decide (Getenv h "OTEL_METRICS_ENABLED" = "true")) w)
  ∧ (∀ o err w1, Interface.NewTelemetry h w = Return (Some o, err) w1 →
     tracerName (OpenTelemetry.tracer o) = "unknown-service"
     ∧ meterName (OpenTelemetry.meter o) = "unknown-service")
  ∧ (∀ t err w1, LegacyInterface.NewTelemetry ToLower h w = Return (Some t, err) w1 →
       match t with
       | LegacyInterface.otel o =>
           tracerName (LegacyOpenTelemetry.tracer o) = "unknown-service"
           ∧ meterName (LegacyOpenTelemetry.meter o) = "unknown-service"
       | LegacyInterface.appinsights ai =>
           AppInsightsTelemetry.serviceName ai = "Melina"
       end)
  ∧ (∃ ai w1, AppInsightsTelemetry.newAppInsightsTelemetry h w
                = Return (Some ai, None) w1
              ∧ AppInsightsTelemetry.serviceName ai = "Melina").
Proof.
  split; [|split; [|split; [|by apply newAppInsightsTelemetry_default_name]]].
  - intros Hsel. unfold Interface.NewTelemetry. rewrite Hunset. simpl.
    by case_decide.
  - intros o err w1. unfold Interface.NewTelemetry. rewrite Hunset. simpl.
    case_decide; [|done]. apply NewOpenTelemetry_names.
  - intros t err w1. unfold LegacyInterface.NewTelemetry. rewrite Hunset. simpl.
    repeat case_decide; run; try done;
      first
        [ destruct (LegacyOpenTelemetry.newOpenTelemetry _ _ _ _ _ _ w)
            as [[[o|] e] w'|] eqn:Hnew; simpl; [|done..];
          intros [= <- <- <-]; by eapply legacy_constructor_names
        | destruct (newAppInsightsTelemetry_default_name h w Hunset)
            as (ai & w' & -> & Hname);
          simpl; by intros [= <- <- <-] ].
Qed.

Lemma ServiceName_default_witness :
  Interface.NewTelemetry (quiet_host ∅) (world0 0)
    = OpenTelemetry.NewOpenTelemetry (quiet_host ∅) "unknown-service"
        (Getenv (quiet_host ∅) "OTEL_EXPORTER_OTLP_TRACES_ENDPOINT")
        (Getenv (quiet_host ∅) "OTEL_EXPORTER_OTLP_METRICS_ENDPOINT")
        (bool_decide (Getenv (quiet_host ∅) "OTEL_TRACE_ENABLED" = "true"))
        (bool_decide (Getenv (quiet_host ∅) "OTEL_METRICS_ENABLED" = "true"))
        (world0 0)
  ∧ ∃ ai w1,
      AppInsightsTelemetry.newAppInsightsTelemetry (quiet_host ∅) (world0 0)
        = Return (Some ai, None) w1
      ∧ AppInsightsTelemetry.serviceName ai = "Melina".
Proof.
  pose proof (ServiceName_default ascii_ToLower (quiet_host ∅) (world0 0) eq_refl)
    as (Hstream & _ & _ & Hflat).
  split; [|exact Hflat].
  apply Hstream. apply (bool_decide_unpack _). vm_compute. exact I.
Defined.

(** On a quiet host with an empty environment the streaming backend is
    built, named "unknown-service", with both flags off. *)
Example NewTelemetry_empty_environment :
  Interface.NewTelemetry (quiet_host ∅) (world0 0)
  = Return
      (Some (OpenTelemetry.mkOpenTelemetry (mkTracer "unknown-service")
               (mkMeter "unknown-service" (λ _, None)) None None false false),
       None)
      (mkWorld 0 [] [] [] []
         [mkEntry InfoLevel "OpenTelemetry Configuration "
            [zap_String "serviceName" "unknown-service";
             zap_String "traceEndpoint" "";
             zap_String "metricEndpoint" "";
             zap_Bool "traceEnabled" false;
             zap_Bool "metricsEnabled" false]]
         [] None None).
Proof. vm_compute. reflexivity. Qed.

(** C9 as stated fails when the flat backend is selected: with
    SERVICE_NAME unset, the backend that [NewTelemetry] returns is named
    "Melina", not "unknown-service". *)
Lemma ServiceName_flat_default_is_Melina :
  environ (quiet_host {[ "TELEMETRY_TYPE" := "appinsights" ]}) !! "SERVICE_NAME" = None
  ∧ LegacyInterface.NewTelemetry ascii_ToLower
      (quiet_host {[ "TELEMETRY_TYPE" := "appinsights" ]}) (world0 0)
    = Return
        (Some (LegacyInterface.appinsights
                 (AppInsightsTelemetry.mkAppInsightsTelemetry
                    (AppInsightsTelemetry.NewTelemetryClient
                       "6b57af63-7a39-4834-9d3d-405ddb07a51a")
                    "host-1" "Melina" false false)), None)
        (mkWorld 0 [] [] [] []
           [mkEntry InfoLevel
              "APPINSIGHTS_INSTRUMENTATIONKEY is not set, using default instrumentation key" [];
            mkEntry InfoLevel "SERVICE_NAME is not set, using Melina as default" []]
           [] None None)
  ∧ "Melina" ≠ "unknown-service".
Proof. split; [|split]; [vm_compute; reflexivity..|discriminate]. Qed.

(** ** C10: [IncrementCounter] is [RecordMetric] *)

(** C10.  On the streaming backend, in both of its versions, and on the
    flat backend, [IncrementCounter] with given arguments is the same
    computation as [RecordMetric] with those arguments: the same result
    and the same world from every world. *)
Theorem IncrementCounter_is_RecordMetric
    (o : OpenTelemetry.OpenTelemetry)
    (ai : AppInsightsTelemetry.AppInsightsTelemetry)
    (pkg : telemetry.vars) (lo : LegacyOpenTelemetry.OpenTelemetry)
    (ctx : Context) (name : string) (value : float64)
    (attrs : list KeyValue) (w : World) :
  OpenTelemetry.IncrementCounter o ctx name value attrs w
    = OpenTelemetry.RecordMetric o ctx name value attrs w
  ∧ AppInsightsTelemetry.IncrementCounter ai ctx name value attrs w
      = AppInsightsTelemetry.RecordMetric ai ctx name value attrs w
  ∧ LegacyOpenTelemetry.IncrementCounter pkg lo ctx name value attrs w
      = LegacyOpenTelemetry.RecordMetric pkg lo ctx name value attrs w.
Proof. repeat split. Qed.

(** What the common computation is, on the streaming backend with
    metrics enabled and on the flat backend with telemetry enabled. *)
Example IncrementCounter_streaming :
  exec (OpenTelemetry.IncrementCounter (streaming false true) Background
          "requests.total" float64_1 [attribute.String "route" "/x"]) (world0 0)
  = Some (mkWorld 0 [] []
            [Float64Counter "requests.total";
             Add "requests.total" float64_1 [attribute.String "route" "/x"]]
            [] [] [] None None).
Proof. reflexivity. Qed.

Example IncrementCounter_flat :
  exec (AppInsightsTelemetry.IncrementCounter (flat false true) Background
          "requests.total" float64_1 [attribute.Int64 "size" 3]) (world0 0)
  = Some (mkWorld 0 [] [] []
            [MetricTelemetry "requests.total" float64_1;
             MetricTelemetry "requests.total.size" 3]
            [] [] None None).
Proof. reflexivity. Qed.

(** * Further properties of the package *)

(** ** Calls extend the world *)

Lemma extends_refl w : extends w w.
Proof. split; [auto|]. split; [lia|]. split; [reflexivity|auto]. Qed.

Lemma extends_trans w1 w2 w3 : extends w1 w2 → extends w2 w3 → extends w1 w3.
Proof.
  intros (Hf1 & Hl1 & Hp1 & Hi1) (Hf2 & Hl2 & Hp2 & Hi2).
  split; [eauto|]. split; [lia|]. split; [by etrans|auto].
Qed.

(** A step that keeps the ended spans, loses no span and exports
    nothing extends the world. *)
Lemma extends_same_exports w w' :
  (∀ id d, spans w !! id = Some d → recording d = false → spans w' !! id = Some d) →
  (length (spans w) ≤ length (spans w'))%nat →
  exported w' = exported w →
  extends w w'.
Proof.
  intros Hf Hl He. split; [exact Hf|]. split; [exact Hl|].
  unfold exported_once. rewrite He.
  split; [reflexivity|]. intros [Hnd Hex]. split; [exact Hnd|].
  intros id Hid. destruct (Hex id Hid) as (d & Hd & Hr). eauto.
Qed.

Lemma sound_ret {A} (a : A) (Q : A → Prop) : Q a → sound (mret a) Q.
Proof. intros HQ w. exists a, w. auto using extends_refl. Qed.

Lemma sound_bind {A B} (m : Go A) (f : A → Go B) (P : A → Prop) (Q : B → Prop) :
  sound m P → (∀ a, P a → sound (f a) Q) → sound (m ≫= f) Q.
Proof.
  intros Hm Hf w. destruct (Hm w) as (a & w1 & Hrun & Hext & HP).
  destruct (Hf a HP w1) as (b & w2 & Hrun2 & Hext2 & HQ).
  exists b, w2. unfold mbind, Go_bind. rewrite Hrun.
  eauto using extends_trans.
Qed.

Lemma sound_weaken {A} (m : Go A) (P Q : A → Prop) :
  sound m P → (∀ a, P a → Q a) → sound m Q.
Proof.
  intros Hm HPQ w. destruct (Hm w) as (a & w1 & ? & ? & ?). eauto 6.
Qed.

Lemma sound_seq {A B} (m : Go A) (k : Go B) (P : A → Prop) (Q : B → Prop) :
  sound m P → sound k Q → sound (m;; k) Q.
Proof. intros Hm Hk. eapply sound_bind; eauto. Qed.

Lemma sound_get : sound get (λ _, True).
Proof. intros w. exists w, w. auto using extends_refl. Qed.

(** A change of the world that leaves spans and exports alone. *)
Lemma sound_modify (f : World → World) :
  (∀ w, spans (f w) = spans w ∧ exported (f w) = exported w) →
  sound (modify f) (λ _, True).
Proof.
  intros Hf w. exists tt, (f w). destruct (Hf w) as [Hs He].
  split; [done|]. split; [|done].
  apply extends_same_exports; rewrite ?Hs; done.
Qed.

Lemma sound_Log lvl msg fs : sound (Log lvl msg fs) (λ _, True).
Proof. by apply sound_modify. Qed.

Lemma sound_Meter_call c : sound (Meter_call c) (λ _, True).
Proof. by apply sound_modify. Qed.

Lemma sound_Span_call s c : sound (Span_call s c) (λ _, True).
Proof.
  intros w. destruct (recordingIn w s) eqn:Hrec.
  - destruct s as [id| |]; try done. simpl in Hrec.
    destruct (spans w !! id) as [d|] eqn:Hd; [|done].
    eexists tt, _. split; [by apply (Span_call_recording id d)|]. split; [|done].
    apply extends_same_exports; simpl; [|by rewrite length_insert|done].
    intros id' d' Hd' Hr'. rewrite list_lookup_insert_ne; [done|].
    intros <-. congruence.
  - exists tt, w. split; [by apply Span_call_not_recording|].
    auto using extends_refl.
Qed.

Lemma sound_Span_End s : sound (Span_End s) (λ _, True).
Proof.
  intros w. destruct (recordingIn w s) eqn:Hrec.
  - destruct s as [id| |]; try done. simpl in Hrec.
    destruct (spans w !! id) as [d|] eqn:Hd; [|done].
    eexists tt, _. split; [by apply (Span_End_recording id d)|]. split; [|done].
    assert (Hf : ∀ id' d', spans w !! id' = Some d' → recording d' = false →
                           <[id := ended d]> (spans w) !! id' = Some d').
    { intros id' d' Hd' Hr'. rewrite list_lookup_insert_ne; [done|].
      intros <-. congruence. }
    split; [exact Hf|]. simpl. split; [by rewrite length_insert|].
    split; [by apply prefix_app_r|].
    intros [Hnd Hex]. split.
    + apply NoDup_app. split; [done|]. split; [|apply NoDup_singleton].
      intros id' Hin ->%list_elem_of_singleton.
      destruct (Hex id Hin) as (d' & Hd' & Hr'). congruence.
    + intros id' [Hin| ->%list_elem_of_singleton]%elem_of_app.
      * destruct (Hex id' Hin) as (d' & Hd' & Hr'). eauto.
      * exists (ended d). split; [|done].
        apply list_lookup_insert_eq. by eapply lookup_lt_Some.
  - exists tt, w. split; [by apply Span_End_not_recording|].
    auto using extends_refl.
Qed.

Lemma sound_Span_IsRecording s : sound (Span_IsRecording s) (λ _, True).
Proof. intros w. exists (recordingIn w s), w. auto using extends_refl. Qed.

Lemma sound_Tracer_Start t ctx name :
  sound (Tracer_Start t ctx name) (λ r, is_Some r.2).
Proof.
  intros w. eexists _, _.
  split; [unfold Tracer_Start; run; reflexivity|]. split; [|by eexists].
  apply extends_same_exports; simpl; [|rewrite length_app; lia|done].
  intros id d Hd _. by apply lookup_app_l_Some.
Qed.

Lemma sound_Provider_Shutdown p :
  sound (Provider_Shutdown (Some p)) (λ _, True).
Proof.
  intros w. eexists _, _.
  split; [unfold Provider_Shutdown; run; reflexivity|]. split; [|done].
  by apply extends_same_exports.
Qed.

Lemma sound_defer {A} (d : Go unit) (body : Go A) (P : unit → Prop) (Q : A → Prop) :
  sound d P → sound body Q → sound (defer d body) Q.
Proof.
  intros Hd Hb. unfold defer. eapply sound_bind; [exact Hb|].
  intros a Ha. eapply sound_seq; [exact Hd|]. by apply sound_ret.
Qed.

(** ** Every method of the streaming backend extends the world *)

Ltac sound_step :=
  first
    [ apply sound_ret; done
    | apply (sound_ret _ (λ _, True)); done
    | apply sound_Log
    | apply sound_Meter_call
    | apply sound_Span_call
    | apply sound_Span_End
    | apply sound_Span_IsRecording
    | apply sound_Provider_Shutdown
    | eapply sound_seq
    | eapply sound_bind; [|intros ? ?]
    | match goal with
      | |- sound (if ?b then _ else _) _ => destruct b eqn:?
      | |- sound (match ?x with _ => _ end) _ => destruct x eqn:?
      end ].

Ltac sound_auto :=
  unfold Span_SetAttributes, Span_SetStatus, Span_AddEvent, Span_RecordError,
    Log_Info, Log_Warn, Log_Error, Meter_instrument, OpenTelemetry.deref;
  repeat sound_step.

Lemma sound_StartSpan o ctx name :
  sound (OpenTelemetry.StartSpan o ctx name)
    (λ r, OpenTelemetry.traceEnabled o = true → is_Some r.2).
Proof.
  unfold OpenTelemetry.StartSpan.
  destruct (OpenTelemetry.traceEnabled o); simpl.
  - eapply sound_weaken; [apply sound_Tracer_Start|]. auto.
  - by apply sound_ret.
Qed.

Lemma sound_EndSpan o span : sound (OpenTelemetry.EndSpan o span) (λ _, True).
Proof. unfold OpenTelemetry.EndSpan. sound_auto. Qed.

Lemma sound_RecordMetric o ctx name value attrs :
  sound (OpenTelemetry.RecordMetric o ctx name value attrs) (λ _, True).
Proof. unfold OpenTelemetry.RecordMetric. sound_auto. Qed.

Lemma sound_RecordError o ctx err attrs :
  sound (OpenTelemetry.RecordError o ctx err attrs) (λ _, True).
Proof. unfold OpenTelemetry.RecordError. sound_auto. Qed.

Lemma sound_TrackRequest o ctx method url duration statusCode :
  sound (OpenTelemetry.TrackRequest o ctx method url duration statusCode) (λ _, True).
Proof.
  unfold OpenTelemetry.TrackRequest.
  destruct (OpenTelemetry.traceEnabled o) eqn:Hon; simpl; [|by apply sound_ret].
  eapply sound_bind; [apply sound_StartSpan|].
  intros [ctx' span] Hspan. destruct (Hspan Hon) as [s Hs]. simpl in Hs. subst span.
  eapply sound_defer; [apply sound_EndSpan|]. sound_auto.
Qed.

Lemma sound_TrackDependency o ctx dependencyType target duration success :
  sound (OpenTelemetry.TrackDependency o ctx dependencyType target duration success)
    (λ _, True).
Proof.
  unfold OpenTelemetry.TrackDependency.
  destruct (OpenTelemetry.traceEnabled o) eqn:Hon; simpl; [|by apply sound_ret].
  eapply sound_bind; [apply sound_StartSpan|].
  intros [ctx' span] Hspan. destruct (Hspan Hon) as [s Hs]. simpl in Hs. subst span.
  eapply sound_defer; [apply sound_EndSpan|]. sound_auto.
Qed.

Lemma sound_Shutdown o ctx : sound (OpenTelemetry.Shutdown o ctx) (λ _, True).
Proof. unfold OpenTelemetry.Shutdown. sound_auto. Qed.

Lemma sound_perform range o c : sound (perform range o c) (λ _, True).
Proof.
  destruct c; simpl.
  - eapply sound_seq; [apply sound_StartSpan|by apply sound_ret].
  - apply sound_EndSpan.
  - unfold OpenTelemetry.AddEvent. sound_auto.
  - unfold OpenTelemetry.PostEvent. sound_auto.
  - apply sound_RecordMetric.
  - apply sound_RecordError.
  - apply sound_RecordMetric.
  - unfold OpenTelemetry.RecordGauge. sound_auto.
  - unfold OpenTelemetry.LogInfo. sound_auto.
  - unfold OpenTelemetry.LogWarning. sound_auto.
  - unfold OpenTelemetry.LogError. eapply sound_seq; [sound_auto|apply sound_RecordError].
  - apply sound_TrackRequest.
  - apply sound_TrackDependency.
  - unfold OpenTelemetry.TrackAvailability.
    destruct (OpenTelemetry.metricsEnabled o); simpl;
      [apply sound_RecordMetric|by apply sound_ret].
  - unfold OpenTelemetry.SetUser. sound_auto.
  - unfold OpenTelemetry.SetSession. sound_auto.
  - unfold OpenTelemetry.PostTrace. sound_auto.
  - eapply sound_seq; [apply sound_Shutdown|by apply sound_ret].
Qed.

Lemma sound_perform_all range o cs : sound (perform_all range o cs) (λ _, True).
Proof.
  induction cs as [|c cs IH]; simpl.
  - by apply sound_ret.
  - eapply sound_seq; [apply sound_perform|exact IH].
Qed.

(** ** Sequences of calls on the streaming backend *)

(** Whatever methods of the streaming backend are called, with whatever
    arguments and from whatever world, every call returns: none faults,
    not even on a nil span, a nil error or an ended span.  No span is
    lost on the way and what was handed to the exporter stays so. *)
Theorem streaming_calls_never_fault
    (range : gmap string string → list (string * string))
    (o : OpenTelemetry.OpenTelemetry) (cs : list Call) (w : World) :
  ∃ w', perform_all range o cs w = Return tt w'
        ∧ (length (spans w) ≤ length (spans w'))%nat
        ∧ exported w `prefix_of` exported w'.
Proof.
  destruct (sound_perform_all range o cs w) as ([] & w' & Hrun & Hext & _).
  exists w'. split; [done|]. by destruct Hext as (_ & ? & ? & _).
Qed.

(** If no span has been handed to the exporter twice, and every exported
    span has ended, then the same holds after any sequence of calls on
    the streaming backend: a span is exported at most once, however
    often it is closed. *)
Theorem streaming_exports_each_span_once
    (range : gmap string string → list (string * string))
    (o : OpenTelemetry.OpenTelemetry) (cs : list Call) (w w' : World) :
  exported_once w →
  perform_all range o cs w = Return tt w' →
  NoDup (exported w')
  ∧ ∀ id, id ∈ exported w' → ∃ d, spans w' !! id = Some d ∧ recording d = false.
Proof.
  intros Hw Hrun.
  destruct (sound_perform_all range o cs w) as ([] & w1 & Hrun1 & Hext & _).
  rewrite Hrun in Hrun1. injection Hrun1 as <-.
  by apply Hext.
Qed.

Lemma streaming_exports_each_span_once_witness :
  NoDup (exported
           (mkWorld 0 [mkSpanData "op" noopSpan 0 false []] [0%nat] [] [] [] [] None None)).
Proof.
  refine (proj1 (streaming_exports_each_span_once (λ _, [])
            (streaming true true)
            [call_StartSpan Background "op";
             call_EndSpan (Some (recordingSpan 0));
             call_EndSpan (Some (recordingSpan 0))]
            (world0 0)
            (mkWorld 0 [mkSpanData "op" noopSpan 0 false []] [0%nat] [] [] [] [] None None)
            _ _)).
  - split; [apply NoDup_nil_2|]. intros id Hid. by apply elem_of_nil in Hid.
  - reflexivity.
Defined.

(** A span that has ended is never changed again: after any sequence of
    calls on the streaming backend it still holds exactly the calls it
    took before it ended. *)
Theorem ended_span_is_never_changed
    (range : gmap string string → list (string * string))
    (o : OpenTelemetry.OpenTelemetry) (cs : list Call) (w w' : World)
    (id : nat) (d : SpanData) :
  spans w !! id = Some d → recording d = false →
  perform_all range o cs w = Return tt w' →
  spans w' !! id = Some d.
Proof.
  intros Hd Hr Hrun.
  destruct (sound_perform_all range o cs w) as ([] & w1 & Hrun1 & Hext & _).
  rewrite Hrun in Hrun1. injection Hrun1 as <-.
  destruct Hext as (Hf & _). eauto.
Qed.

Lemma ended_span_is_never_changed_witness :
  spans (mkWorld 0 [mkSpanData "op" noopSpan 0 false []] [0%nat] [] []
           [mkEntry ErrorLevel "failed"
              [zap_Error (Some (errorString "boom")); zap_Any "attributes" []]]
           [] None None)
    !! 0%nat
  = Some (mkSpanData "op" noopSpan 0 false []).
Proof.
  apply (ended_span_is_never_changed (λ _, []) (streaming true true)
           [call_AddEvent (Some (recordingSpan 0)) "late" [];
            call_SetUser (ContextWithSpan Background (recordingSpan 0)) "u1";
            call_LogError (ContextWithSpan Background (recordingSpan 0)) "failed"
              (Some (errorString "boom")) [];
            call_EndSpan (Some (recordingSpan 0))]
           (mkWorld 0 [mkSpanData "op" noopSpan 0 false []] [0%nat] [] [] [] [] None None)
           _ 0%nat (mkSpanData "op" noopSpan 0 false []));
    reflexivity.
Defined.

(** ** Events and the life of a span *)

(** On the streaming backend with tracing enabled, an event added
    between [StartSpan] and [EndSpan] is part of the span that is
    exported, and an event added after [EndSpan] is dropped: the span is
    exported once, holding the first event only. *)
Theorem AddEvent_only_while_open
    (o : OpenTelemetry.OpenTelemetry) (ctx : Context) (name ev late : string)
    (attrs attrs' : list KeyValue) (w : World) :
  OpenTelemetry.traceEnabled o = true →
  exec ('(_, span) ← OpenTelemetry.StartSpan o ctx name;
        OpenTelemetry.AddEvent o span ev attrs;;
        OpenTelemetry.EndSpan o span;;
        OpenTelemetry.AddEvent o span late attrs') w
  = Some (set_exported (λ l, l ++ [length (spans w)])
            (set_spans (λ l, l ++ [mkSpanData name (SpanFromContext ctx) (now w)
                                     false [AddEvent ev attrs]]) w)).
Proof.
  intros Hon. unfold exec. run.
  rewrite StartSpan_enabled by done.
  set (id := length (spans w)).
  unfold OpenTelemetry.AddEvent, OpenTelemetry.EndSpan, Span_AddEvent.
  erewrite Span_call_recording; [|apply lookup_snoc|done].
  erewrite Span_End_recording;
    [|simpl; unfold id; rewrite ?insert_snoc; apply lookup_snoc|done].
  rewrite Span_call_not_recording;
    [|simpl; unfold id; by rewrite !insert_snoc, lookup_snoc].
  unfold set_exported, set_spans. simpl. unfold id. by rewrite !insert_snoc.
Qed.

Lemma AddEvent_only_while_open_witness :
  exec ('(_, span) ← OpenTelemetry.StartSpan (streaming true false) Background "op";
        OpenTelemetry.AddEvent (streaming true false) span "cache-miss" [];;
        OpenTelemetry.EndSpan (streaming true false) span;;
        OpenTelemetry.AddEvent (streaming true false) span "late" []) (world0 3)
  = Some (set_exported (λ l, l ++ [length (spans (world0 3))])
            (set_spans (λ l, l ++ [mkSpanData "op" (SpanFromContext Background)
                                     (now (world0 3)) false [AddEvent "cache-miss" []]])
               (world0 3))).
Proof.
  apply (AddEvent_only_while_open (streaming true false) Background
           "op" "cache-miss" "late" [] [] (world0 3)).
  reflexivity.
Defined.

(** ** Dependencies and availability tests *)

(** [TrackDependency] on the streaming backend: with tracing enabled it
    exports exactly one span, named "Dependency Call", that took the
    four dependency attributes; the span takes the status Error
    "Dependency call failed" when the call failed and no status at all
    when it succeeded.  With tracing disabled it does nothing. *)
Theorem TrackDependency_items
    (o : OpenTelemetry.OpenTelemetry) (ctx : Context)
    (dependencyType target : string) (duration : Duration) (success : bool)
    (w : World) :
  (OpenTelemetry.traceEnabled o = true →
   ∃ w1, OpenTelemetry.TrackDependency o ctx dependencyType target duration success w
           = Return tt w1
         ∧ spans w1 = spans w
             ++ [mkSpanData "Dependency Call" (SpanFromContext ctx) (now w) false
                   (SetAttributes
                      [attribute.String "dependency.type" dependencyType;
                       attribute.String "dependency.target" target;
                       attribute.Int64 "dependency.duration_ms" (Milliseconds duration);
                       attribute.Bool "dependency.success" success]
                    :: (if success then []
                        else [SetStatus codes.Error "Dependency call failed"]))]
         ∧ exported w1 = exported w ++ [length (spans w)]
         ∧ submissions w1 = S (submissions w))
  ∧ (OpenTelemetry.traceEnabled o = false →
     OpenTelemetry.TrackDependency o ctx dependencyType target duration success w
       = Return tt w).
Proof.
  split.
  - intros Hon. unfold OpenTelemetry.TrackDependency. rewrite Hon. simpl.
    change (Go_bind _ _ ?f ?m) with (mbind f m).
    unfold mbind at 1. unfold Go_bind at 1.
    rewrite StartSpan_enabled by done.
    set (id := length (spans w)).
    unfold defer, OpenTelemetry.deref, OpenTelemetry.EndSpan.
    unfold Span_SetAttributes, Span_SetStatus. run.
    erewrite Span_call_recording; [|apply lookup_snoc|done].
    destruct success; cbn [negb].
    + erewrite Span_End_recording;
        [|simpl; unfold id; rewrite ?insert_snoc; apply lookup_snoc|done].
      eexists. split; [done|]. simpl. unfold id. rewrite !insert_snoc.
      repeat split. unfold submissions. simpl. rewrite length_app. simpl. lia.
    + erewrite Span_call_recording;
        [|simpl; unfold id; rewrite ?insert_snoc; apply lookup_snoc|done].
      erewrite Span_End_recording;
        [|simpl; unfold id; rewrite ?insert_snoc; apply lookup_snoc|done].
      eexists. split; [done|]. simpl. unfold id. rewrite !insert_snoc.
      repeat split. unfold submissions. simpl. rewrite length_app. simpl. lia.
  - intros Hoff. unfold OpenTelemetry.TrackDependency. by rewrite Hoff.
Qed.

Lemma TrackDependency_items_witness :
  OpenTelemetry.TrackDependency (streaming false true) Background "sql" "user_db"
    20000000 true (world0 0) = Return tt (world0 0)
  ∧ ∃ w1, OpenTelemetry.TrackDependency (streaming true false) Background "sql"
            "user_db" 20000000 true (world0 0) = Return tt w1
          ∧ spans w1 = spans (world0 0)
              ++ [mkSpanData "Dependency Call" (SpanFromContext Background)
                    (now (world0 0)) false
                    (SetAttributes
                       [attribute.String "dependency.type" "sql";
                        attribute.String "dependency.target" "user_db";
                        attribute.Int64 "dependency.duration_ms" (Milliseconds 20000000);
                        attribute.Bool "dependency.success" true]
                     :: [])]
          ∧ exported w1 = exported (world0 0) ++ [length (spans (world0 0))]
          ∧ submissions w1 = S (submissions (world0 0)).
Proof.
  split.
  - exact (proj2 (TrackDependency_items (streaming false true) Background "sql"
             "user_db" 20000000 true (world0 0)) eq_refl).
  - exact (proj1 (TrackDependency_items (streaming true false) Background "sql"
             "user_db" 20000000 true (world0 0)) eq_refl).
Defined.

(** [TrackAvailability] is a metric on both backends.  On the streaming
    backend its gate is metrics-enabled, whatever trace-enabled is: when
    on, and the counter can be made, the counter "availability.tests" is
    asked for and 1 is added with the three availability attributes, and
    no span is started or exported; when off, nothing happens.  On the
    flat backend one availability item is tracked exactly when
    telemetry-enabled is true. *)
Theorem TrackAvailability_items
    (o : OpenTelemetry.OpenTelemetry)
    (ai : AppInsightsTelemetry.AppInsightsTelemetry)
    (ctx : Context) (name : string) (duration : Duration) (success : bool)
    (w : World) :
  (OpenTelemetry.metricsEnabled o = true →
   instrumentErr (OpenTelemetry.meter o) "availability.tests" = None →
   ∃ w1, OpenTelemetry.TrackAvailability o ctx name duration success w = Return tt w1
         ∧ meterCalls w1 = meterCalls w
             ++ [Float64Counter "availability.tests";
                 Add "availability.tests" float64_1
                   [attribute.String "availability.test" name;
                    attribute.Int64 "availability.duration_ms" (Milliseconds duration);
                    attribute.Bool "availability.success" success]]
         ∧ spans w1 = spans w ∧ exported w1 = exported w)
  ∧ (OpenTelemetry.metricsEnabled o = false →
     OpenTelemetry.TrackAvailability o ctx name duration success w = Return tt w)
  ∧ AppInsightsTelemetry.TrackAvailability ai ctx name duration success w =
      Return tt
        (if AppInsightsTelemetry.telemetryEnabled ai
         then set_tracked (λ l, l ++ [AvailabilityTelemetry name duration success]) w
         else w).
Proof.
  split; [|split].
  - intros Hon Herr.
    unfold OpenTelemetry.TrackAvailability, OpenTelemetry.RecordMetric.
    rewrite Hon. simpl. unfold Meter_instrument, Meter_call. run. rewrite Herr.
    eexists. split; [done|]. simpl. by rewrite <- app_assoc.
  - intros Hoff. unfold OpenTelemetry.TrackAvailability. by rewrite Hoff.
  - unfold AppInsightsTelemetry.TrackAvailability.
    by destruct (AppInsightsTelemetry.telemetryEnabled ai).
Qed.

Lemma TrackAvailability_items_witness :
  OpenTelemetry.TrackAvailability (streaming true false) Background "ping"
    5000000 true (world0 0) = Return tt (world0 0)
  ∧ ∃ w1, OpenTelemetry.TrackAvailability (streaming false true) Background "ping"
            5000000 true (world0 0) = Return tt w1
          ∧ meterCalls w1 = meterCalls (world0 0)
              ++ [Float64Counter "availability.tests";
                  Add "availability.tests" float64_1
                    [attribute.String "availability.test" "ping";
                     attribute.Int64 "availability.duration_ms" (Milliseconds 5000000);
                     attribute.Bool "availability.success" true]]
          ∧ spans w1 = spans (world0 0) ∧ exported w1 = exported (world0 0).
Proof.
  split.
  - exact (proj1 (proj2 (TrackAvailability_items (streaming true false)
             (flat true true) Background "ping" 5000000 true (world0 0))) eq_refl).
  - exact (proj1 (TrackAvailability_items (streaming false true)
             (flat true true) Background "ping" 5000000 true (world0 0))
             eq_refl eq_refl).
Defined.

(** ** Tagging the current span *)

Ltac tag_current_span Hon Hrec :=
  run; unfold Span_IsRecording; run;
  rewrite ?Hon; cbn [negb]; rewrite ?Hrec.

(** [SetUser] and [SetSession] on the streaming backend never start a
    span and never submit anything.  With tracing enabled and a
    recording span in the context, that span takes the attribute user.id
    or session.id; with tracing disabled, or no recording span in the
    context, the world stays as it is. *)
Theorem SetUser_SetSession_tag_current_span
    (o : OpenTelemetry.OpenTelemetry) (ctx : Context) (id : string) (w : World) :
  (OpenTelemetry.traceEnabled o = true →
   recordingIn w (SpanFromContext ctx) = true →
   ∃ n d, SpanFromContext ctx = recordingSpan n ∧ spans w !! n = Some d
          ∧ OpenTelemetry.SetUser o ctx id w =
              Return tt (set_spans (λ l,
                <[n := accept (SetAttributes [attribute.String "user.id" id]) d]> l) w)
          ∧ OpenTelemetry.SetSession o ctx id w =
              Return tt (set_spans (λ l,
                <[n := accept (SetAttributes [attribute.String "session.id" id]) d]> l) w))
  ∧ (OpenTelemetry.traceEnabled o = false
       ∨ recordingIn w (SpanFromContext ctx) = false →
     OpenTelemetry.SetUser o ctx id w = Return tt w
     ∧ OpenTelemetry.SetSession o ctx id w = Return tt w).
Proof.
  unfold OpenTelemetry.SetUser, OpenTelemetry.SetSession, Span_SetAttributes.
  split.
  - intros Hon Hrec. pose proof Hrec as Hrec'. unfold recordingIn in Hrec'.
    destruct (SpanFromContext ctx) as [n| |] eqn:Hctx; try done.
    destruct (spans w !! n) as [d|] eqn:Hd; [|done].
    exists n, d. split; [done|]. split; [done|].
    tag_current_span Hon Hrec.
    by rewrite !(Span_call_recording n d).
  - intros [Hoff|Hrec].
    + by rewrite Hoff.
    + destruct (OpenTelemetry.traceEnabled o); [|done].
      tag_current_span Hrec Hrec. done.
Qed.

Lemma SetUser_SetSession_tag_current_span_witness :
  (∃ n d, SpanFromContext (ContextWithSpan Background (recordingSpan 0)) = recordingSpan n
          ∧ spans (mkWorld 0 [mkSpanData "op" noopSpan 0 true []] [] [] [] [] [] None None)
              !! n = Some d
          ∧ OpenTelemetry.SetUser (streaming true false)
              (ContextWithSpan Background (recordingSpan 0)) "u1"
              (mkWorld 0 [mkSpanData "op" noopSpan 0 true []] [] [] [] [] [] None None)
            = Return tt (set_spans (λ l,
                <[n := accept (SetAttributes [attribute.String "user.id" "u1"]) d]> l)
                (mkWorld 0 [mkSpanData "op" noopSpan 0 true []] [] [] [] [] [] None None))
          ∧ OpenTelemetry.SetSession (streaming true false)
              (ContextWithSpan Background (recordingSpan 0)) "u1"
              (mkWorld 0 [mkSpanData "op" noopSpan 0 true []] [] [] [] [] [] None None)
            = Return tt (set_spans (λ l,
                <[n := accept (SetAttributes [attribute.String "session.id" "u1"]) d]> l)
                (mkWorld 0 [mkSpanData "op" noopSpan 0 true []] [] [] [] [] [] None None)))
  ∧ OpenTelemetry.SetUser (streaming true false) Background "u1" (world0 0)
    = Return tt (world0 0)
  ∧ OpenTelemetry.SetSession (streaming true false) Background "u1" (world0 0)
    = Return tt (world0 0).
Proof.
  split.
  - exact (proj1 (SetUser_SetSession_tag_current_span (streaming true false)
             (ContextWithSpan Background (recordingSpan 0)) "u1"
             (mkWorld 0 [mkSpanData "op" noopSpan 0 true []] [] [] [] [] [] None None))
             eq_refl eq_refl).
  - exact (proj2 (SetUser_SetSession_tag_current_span (streaming true false)
             Background "u1" (world0 0)) (or_intror eq_refl)).
Defined.

(** ** Events and traces posted without a context *)

(** [PostEvent] and [PostTrace] of the streaming backend look for the
    current span in a fresh background context, which has none.  So
    [PostEvent] never does anything, enabled or not, and [PostTrace]
    reaches no span either: with tracing enabled it writes one info
    entry "Trace recorded" to the logger, whose attributes begin with
    the message and the severity, and with tracing disabled it does
    nothing. *)
Theorem PostEvent_PostTrace_reach_no_span
    (range : gmap string string → list (string * string))
    (o : OpenTelemetry.OpenTelemetry) (name message severity : string)
    (properties : gmap string string) (w : World) :
  OpenTelemetry.PostEvent range o name properties w = Return tt w
  ∧ OpenTelemetry.PostTrace range o message severity properties w =
      Return tt
        (if OpenTelemetry.traceEnabled o
         then set_logged (λ l, l ++
                [mkEntry InfoLevel "Trace recorded"
                   [zap_Any "attributes"
                      (attribute.String "message" message
                       :: attribute.String "severity" severity
                       :: ((λ kv, attribute.String kv.1 kv.2) <$> range properties))]]) w
         else w).
Proof.
  unfold OpenTelemetry.PostEvent, OpenTelemetry.PostTrace.
  by destruct (OpenTelemetry.traceEnabled o).
Qed.

(** ** Instruments that cannot be made *)

(** With metrics enabled on the streaming backend, [RecordMetric] asks
    the meter for the counter of that name and [RecordGauge] for the
    gauge.  When the instrument is made the value is recorded on it and
    nothing is logged.  When making it fails, the error is logged once,
    no value is recorded, and the call returns like any other: the
    failure does not reach the caller.  No span is touched either way. *)
Theorem instrument_failure_is_logged_and_dropped
    (o : OpenTelemetry.OpenTelemetry) (ctx : Context) (name : string)
    (value : float64) (attrs : list KeyValue) (w : World) :
  OpenTelemetry.metricsEnabled o = true →
  OpenTelemetry.RecordMetric o ctx name value attrs w =
    Return tt
      match instrumentErr (OpenTelemetry.meter o) name with
      | None =>
          set_meterCalls (λ l, l ++ [Float64Counter name; Add name value attrs]) w
      | Some e =>
          set_logged (λ l, l ++ [mkEntry ErrorLevel "Failed to create metric instrument"
                                   [zap_Error (Some e)]])
            (set_meterCalls (λ l, l ++ [Float64Counter name]) w)
      end
  ∧ OpenTelemetry.RecordGauge o ctx name value attrs w =
      Return tt
        match instrumentErr (OpenTelemetry.meter o) name with
        | None =>
            set_meterCalls (λ l, l ++ [Float64Gauge name; Record_ name value attrs]) w
        | Some e =>
            set_logged (λ l, l ++ [mkEntry ErrorLevel "Failed to create gauge instrument"
                                     [zap_Error (Some e)]])
              (set_meterCalls (λ l, l ++ [Float64Gauge name]) w)
        end.
Proof.
  intros Hon. unfold OpenTelemetry.RecordMetric, OpenTelemetry.RecordGauge.
  rewrite Hon. simpl. unfold Meter_instrument, Meter_call. run.
  destruct (instrumentErr (OpenTelemetry.meter o) name); simpl;
    unfold set_meterCalls; simpl; by rewrite <- ?app_assoc.
Qed.

Lemma instrument_failure_is_logged_and_dropped_witness :
  OpenTelemetry.RecordMetric
    (OpenTelemetry.mkOpenTelemetry (mkTracer "svc")
       (mkMeter "svc" (λ _, Some (errorString "invalid instrument name")))
       None None false true)
    Background "bad name" 1 [] (world0 0)
  = Return tt
      (set_logged (λ l, l ++ [mkEntry ErrorLevel "Failed to create metric instrument"
                                [zap_Error (Some (errorString "invalid instrument name"))]])
         (set_meterCalls (λ l, l ++ [Float64Counter "bad name"]) (world0 0))).
Proof.
  exact (proj1 (instrument_failure_is_logged_and_dropped
           (OpenTelemetry.mkOpenTelemetry (mkTracer "svc")
              (mkMeter "svc" (λ _, Some (errorString "invalid instrument name")))
              None None false true)
           Background "bad name" 1 [] (world0 0) eq_refl)).
Defined.

(** ** A nil error *)

(** [LogError] with a nil error: the streaming backend writes the entry
    to the logger and leaves every span alone, even with tracing enabled
    and a recording span in the context; the flat backend faults,
    because it asks the nil error for its message, whatever its flags. *)
Theorem LogError_nil_error
    (o : OpenTelemetry.OpenTelemetry)
    (ai : AppInsightsTelemetry.AppInsightsTelemetry)
    (ctx : Context) (message : string) (attrs : list KeyValue) (w : World) :
  OpenTelemetry.LogError o ctx message None attrs w =
    Return tt (set_logged (λ l, l ++ [mkEntry ErrorLevel message
                                        [zap_Error None; zap_Any "attributes" attrs]]) w)
  ∧ AppInsightsTelemetry.LogError ai ctx message None attrs w = Panic nil_dereference.
Proof.
  split; [|done].
  unfold OpenTelemetry.LogError, Log_Error, Log. run.
  by rewrite RecordError_idle by auto.
Qed.

(** ** The flat backend: metrics and properties *)

Lemma PostMetrics_enabled ai name value w :
  AppInsightsTelemetry.telemetryEnabled ai = true →
  AppInsightsTelemetry.PostMetrics ai name value w
  = Return tt (set_tracked (λ l, l ++ [MetricTelemetry name value]) w).
Proof. intros Hon. unfold AppInsightsTelemetry.PostMetrics. by rewrite Hon. Qed.

Lemma for_range_PostMetrics ai name attrs w :
  AppInsightsTelemetry.telemetryEnabled ai = true →
  for_range attrs (λ attr,
    AppInsightsTelemetry.PostMetrics ai (name +:+ "." +:+ Key attr)
      (AsFloat64 (attrValue attr))) w
  = Return tt
      (set_tracked (λ l, l ++ ((λ attr, MetricTelemetry (name +:+ "." +:+ Key attr)
                                           (AsFloat64 (attrValue attr))) <$> attrs)) w).
Proof.
  intros Hon. revert w. induction attrs as [|attr attrs IH]; intros w.
  - simpl. destruct w. unfold set_tracked. simpl. by rewrite app_nil_r.
  - simpl. run. rewrite PostMetrics_enabled by done.
    rewrite IH. destruct w. unfold set_tracked. simpl.
    by rewrite <- app_assoc.
Qed.

(** With telemetry enabled, [RecordMetric] of the flat backend, and so
    [IncrementCounter] and [RecordGauge], submits one metric item for
    the value and then one more for every attribute, named
    "<name>.<key>" and valued by the attribute read as a float: a call
    with n attributes makes n + 1 submissions. *)
Theorem flat_RecordMetric_one_item_per_attribute
    (ai : AppInsightsTelemetry.AppInsightsTelemetry) (ctx : Context)
    (name : string) (value : float64) (attrs : list KeyValue) (w : World) :
  AppInsightsTelemetry.telemetryEnabled ai = true →
  ∃ w1, AppInsightsTelemetry.RecordMetric ai ctx name value attrs w = Return tt w1
        ∧ AppInsightsTelemetry.RecordGauge ai ctx name value attrs w = Return tt w1
        ∧ tracked w1 = tracked w
            ++ MetricTelemetry name value
               :: ((λ attr, MetricTelemetry (name +:+ "." +:+ Key attr)
                              (AsFloat64 (attrValue attr))) <$> attrs)
        ∧ submissions w1 = (submissions w + S (length attrs))%nat.
Proof.
  intros Hon.
  unfold AppInsightsTelemetry.RecordGauge, AppInsightsTelemetry.RecordMetric.
  run. rewrite PostMetrics_enabled by done.
  rewrite for_range_PostMetrics by done.
  eexists. split; [done|]. split; [done|]. simpl. split.
  - by rewrite <- app_assoc.
  - unfold submissions. simpl. rewrite !length_app, length_fmap. simpl. lia.
Qed.

Lemma flat_RecordMetric_one_item_per_attribute_witness :
  ∃ w1, AppInsightsTelemetry.RecordMetric (flat false true) Background "queue.size" 42
          [attribute.Int64 "shard" 3; attribute.String "region" "eu"] (world0 0)
        = Return tt w1
        ∧ AppInsightsTelemetry.RecordGauge (flat false true) Background "queue.size" 42
            [attribute.Int64 "shard" 3; attribute.String "region" "eu"] (world0 0)
          = Return tt w1
        ∧ tracked w1 = tracked (world0 0)
            ++ MetricTelemetry "queue.size" 42
               :: ((λ attr, MetricTelemetry ("queue.size" +:+ "." +:+ Key attr)
                              (AsFloat64 (attrValue attr)))
                     <$> [attribute.Int64 "shard" 3; attribute.String "region" "eu"])
        ∧ submissions w1 = (submissions (world0 0) + 3)%nat.
Proof.
  apply (flat_RecordMetric_one_item_per_attribute (flat false true) Background
           "queue.size" 42 [attribute.Int64 "shard" 3; attribute.String "region" "eu"]
           (world0 0)).
  reflexivity.
Defined.

Lemma foldl_emit_lookup_other (attrs : list KeyValue) (m : gmap string string) k :
  k ∉ (Key <$> attrs) →
  foldl (λ properties attr, <[Key attr := Emit (attrValue attr)]> properties) m attrs !! k
  = m !! k.
Proof.
  revert m. induction attrs as [|a attrs IH]; intros m Hk; [done|].
  simpl in *. apply not_elem_of_cons in Hk as [Hne Hk].
  rewrite IH by done. by rewrite lookup_insert_ne.
Qed.

Lemma foldl_emit_size (attrs : list KeyValue) (m : gmap string string) :
  (size (foldl (λ properties attr, <[Key attr := Emit (attrValue attr)]> properties)
           m attrs) ≤ size m + length attrs)%nat.
Proof.
  revert m. induction attrs as [|a attrs IH]; intros m; simpl; [lia|].
  etrans; [apply IH|]. rewrite map_size_insert.
  destruct (m !! Key a); unfold id; lia.
Qed.

(** The properties that the flat backend makes of an attribute list
    (for [AddEvent] and the log calls): every key of the list is a
    property, no other key is, and when a key occurs more than once the
    last occurrence gives the value.  So there are at most as many
    properties as attributes. *)
Theorem emitted_last_attribute_wins
    (attrs rest : list KeyValue) (a : KeyValue) (k : string) :
  (Key a ∉ (Key <$> rest) →
   AppInsightsTelemetry.emitted (attrs ++ a :: rest) !! Key a
     = Some (Emit (attrValue a)))
  ∧ (k ∉ (Key <$> attrs) → AppInsightsTelemetry.emitted attrs !! k = None)
  ∧ (size (AppInsightsTelemetry.emitted attrs) ≤ length attrs)%nat.
Proof.
  unfold AppInsightsTelemetry.emitted. split; [|split].
  - intros Hk. rewrite foldl_app. simpl.
    rewrite foldl_emit_lookup_other by done. apply lookup_insert_eq.
  - intros Hk. by rewrite foldl_emit_lookup_other.
  - etrans; [apply foldl_emit_size|]. by rewrite map_size_empty.
Qed.

Lemma emitted_last_attribute_wins_witness :
  AppInsightsTelemetry.emitted
    ([attribute.String "user" "ann"] ++ attribute.String "user" "bob"
       :: [attribute.Int64 "n" 7]) !! "user" = Some "bob"
  ∧ AppInsightsTelemetry.emitted [attribute.String "user" "ann"] !! "n" = None.
Proof.
  split.
  - apply (proj1 (emitted_last_attribute_wins [attribute.String "user" "ann"]
                    [attribute.Int64 "n" 7] (attribute.String "user" "bob") "n")).
    apply (bool_decide_unpack _). vm_compute. exact I.
  - apply (proj1 (proj2 (emitted_last_attribute_wins [attribute.String "user" "ann"]
                    [] (attribute.String "user" "bob") "n"))).
    apply (bool_decide_unpack _). vm_compute. exact I.
Defined.

(** [newAppInsightsTelemetry] always builds the flat backend and never
    returns an error; it only writes to the logger.  An unset
    instrumentation key is replaced by the built-in one, a host name
    that cannot be read by "unkw", and each of the two flags is on
    exactly when its variable is one of 1, t, T, TRUE, true, True. *)
Theorem newAppInsightsTelemetry_always_builds (h : Host) (w : World) :
  ∃ ai w1,
    AppInsightsTelemetry.newAppInsightsTelemetry h w = Return (Some ai, None) w1
    ∧ w1 = set_logged (λ _, logged w1) w
    ∧ AppInsightsTelemetry.iKey (AppInsightsTelemetry.client ai)
        = (if decide (Getenv h "APPINSIGHTS_INSTRUMENTATIONKEY" = "")
           then "6b57af63-7a39-4834-9d3d-405ddb07a51a"
           else Getenv h "APPINSIGHTS_INSTRUMENTATIONKEY")
    ∧ AppInsightsTelemetry.hostname ai
        = match (Hostname h).2 with
          | Some _ => "unkw"
          | None => (Hostname h).1
          end
    ∧ (AppInsightsTelemetry.traceEnabled ai = true
       ↔ Getenv h "APPINSIGHTS_TRACE_ENABLED" ∈ ["1"; "t"; "T"; "TRUE"; "true"; "True"])
    ∧ (AppInsightsTelemetry.telemetryEnabled ai = true
       ↔ Getenv h "APPINSIGHTS_ENABLED" ∈ ["1"; "t"; "T"; "TRUE"; "true"; "True"]).
Proof.
  assert (Hparse : ∀ s, ParseBool s = true
                        ↔ s ∈ ["1"; "t"; "T"; "TRUE"; "true"; "True"]).
  { intros s. unfold ParseBool. by case_decide. }
  unfold AppInsightsTelemetry.newAppInsightsTelemetry, Log_Info, Log_Warn, Log. run.
  destruct (Hostname h) as [hn [e|]];
    repeat case_decide; do 2 eexists; (split; [reflexivity|]); simpl;
    (split; [by destruct w|]); repeat split; try apply Hparse; done.
Qed.

(** ** Constructing the streaming backend *)

#[local] Set Warnings "-clear-no-such-hyp".

(** [NewOpenTelemetry] returns either a backend and a nil error or a nil
    backend and an error, and it makes no submission.  It succeeds
    exactly when the resource can be made and the exporter of every
    enabled kind can be made.  The backend it returns carries the two
    flags it was given, and owns a provider of a kind exactly when that
    kind is enabled, the one it registered globally. *)
Theorem NewOpenTelemetry_outcome
    (h : Host) (serviceName traceEndpoint metricEndpoint : string)
    (traceEnabled metricsEnabled : bool) (w : World) :
  ∃ r w1,
    OpenTelemetry.NewOpenTelemetry h serviceName traceEndpoint metricEndpoint
      traceEnabled metricsEnabled w = Return r w1
    ∧ submissions w1 = submissions w
    ∧ (r.2 = None
       ↔ resource_New h = None
         ∧ (traceEnabled = true → otlptracegrpc_New h = None)
         ∧ (metricsEnabled = true → otlpmetricgrpc_New h = None))
    ∧ match r with
      | (Some o, None) =>
          OpenTelemetry.traceEnabled o = traceEnabled
          ∧ OpenTelemetry.metricsEnabled o = metricsEnabled
          ∧ (is_Some (OpenTelemetry.traceProvider o) ↔ traceEnabled = true)
          ∧ (is_Some (OpenTelemetry.meterProvider o) ↔ metricsEnabled = true)
          ∧ (traceEnabled = true →
             otel_TracerProvider w1 = OpenTelemetry.traceProvider o)
          ∧ (metricsEnabled = true →
             otel_MeterProvider w1 = OpenTelemetry.meterProvider o)
      | (None, Some _) => True
      | _ => False
      end.
Proof.
  unfold OpenTelemetry.NewOpenTelemetry, Log_Info, Log_Error, Log. run.
  destruct (resource_New h) as [e0|];
    [do 2 eexists; split; [reflexivity|]; simpl; naive_solver|].
  destruct traceEnabled; [destruct (otlptracegrpc_New h) as [e1|]|];
    try (do 2 eexists; split; [reflexivity|]; simpl; naive_solver);
    (destruct metricsEnabled; [destruct (otlpmetricgrpc_New h) as [e2|]|]);
    do 2 eexists; (split; [reflexivity|]); simpl;
    (split; [done|]); (split; [naive_solver|]);
    rewrite ?is_Some_alt; naive_solver.
Qed.

(** The error paths of [NewOpenTelemetry].  When the trace exporter
    cannot be made, nothing is registered, the failure is logged, and the
    error that comes back wraps the exporter's error under the label
    "failed to create metric exporter".  When tracing and metrics are
    both enabled and only the metric exporter cannot be made, no backend
    comes back, yet the tracer provider made just before stays
    registered globally. *)
Theorem NewOpenTelemetry_error_paths
    (h : Host) (serviceName traceEndpoint metricEndpoint : string)
    (metricsEnabled : bool) (e : error_value) (w : World) :
  resource_New h = None →
  (otlptracegrpc_New h = Some e →
   ∃ w1, OpenTelemetry.NewOpenTelemetry h serviceName traceEndpoint metricEndpoint
           true metricsEnabled w
         = Return (None, Some (wrapError ("failed to create metric exporter: "
                                           +:+ Error e) e)) w1
         ∧ otel_TracerProvider w1 = otel_TracerProvider w
         ∧ otel_MeterProvider w1 = otel_MeterProvider w
         ∧ last (logged w1)
           = Some (mkEntry ErrorLevel "Failed to create OpenTelemetry exporter"
                     [zap_Error (Some e); zap_String "endpoint" metricEndpoint;
                      zap_Bool "metricsEnabled" metricsEnabled]))
  ∧ (otlptracegrpc_New h = None → otlpmetricgrpc_New h = Some e →
     ∃ w1, OpenTelemetry.NewOpenTelemetry h serviceName traceEndpoint metricEndpoint
             true true w
           = Return (None, Some (wrapError ("failed to create metric exporter: "
                                             +:+ Error e) e)) w1
           ∧ otel_TracerProvider w1
             = Some (mkProvider TracerProvider traceEndpoint (tracerShutdown h))
           ∧ otel_MeterProvider w1 = otel_MeterProvider w).
Proof.
  intros Hres.
  unfold OpenTelemetry.NewOpenTelemetry, Log_Info, Log_Error, Log. run.
  rewrite Hres. split.
  - intros ->. eexists. split; [reflexivity|]. simpl.
    repeat split. by rewrite last_snoc.
  - intros -> ->. eexists. split; [reflexivity|]. done.
Qed.

Lemma NewOpenTelemetry_error_paths_witness :
  ∃ w1, OpenTelemetry.NewOpenTelemetry
          (mkHost ∅ ("host-1", None) None None (Some (errorString "dial failed"))
             (λ _, None) None None)
          "svc" "collector:4317" "collector:4317" true true (world0 0)
        = Return (None, Some (wrapError ("failed to create metric exporter: "
                                          +:+ Error (errorString "dial failed"))
                                (errorString "dial failed"))) w1
        ∧ otel_TracerProvider w1
          = Some (mkProvider TracerProvider "collector:4317" None)
        ∧ otel_MeterProvider w1 = otel_MeterProvider (world0 0).
Proof.
  exact (proj2 (NewOpenTelemetry_error_paths
           (mkHost ∅ ("host-1", None) None None (Some (errorString "dial failed"))
              (λ _, None) None None)
           "svc" "collector:4317" "collector:4317" true
           (errorString "dial failed") (world0 0) eq_refl) eq_refl eq_refl).
Defined.

(** What a successful [NewOpenTelemetry] returns. *)
Lemma NewOpenTelemetry_success h sn te me tEn mEn w o err w1 :
  OpenTelemetry.NewOpenTelemetry h sn te me tEn mEn w = Return (Some o, err) w1 →
  err = None
  ∧ OpenTelemetry.traceEnabled o = tEn ∧ OpenTelemetry.metricsEnabled o = mEn
  ∧ (is_Some (OpenTelemetry.traceProvider o) ↔ tEn = true)
  ∧ (is_Some (OpenTelemetry.meterProvider o) ↔ mEn = true).
Proof.
  unfold OpenTelemetry.NewOpenTelemetry, Log_Info, Log_Error, Log. run.
  destruct (resource_New h); [done|].
  destruct tEn; [destruct (otlptracegrpc_New h)|]; try done;
    (destruct mEn; [destruct (otlpmetricgrpc_New h)|]); try done;
    intros [= <- <- <-]; simpl; rewrite !is_Some_alt; naive_solver.
Qed.

(** The backend that [NewTelemetry] of Interface.go returns has tracing
    enabled exactly when OTEL_TRACE_ENABLED is the string "true", and
    metrics enabled exactly when OTEL_METRICS_ENABLED is; any other
    spelling, such as "TRUE" or "1", leaves the feature off.  It owns a
    provider of a kind exactly when that kind is enabled. *)
Theorem NewTelemetry_flags
    (h : Host) (w w1 : World) (o : OpenTelemetry.OpenTelemetry) (err : error) :
  Interface.NewTelemetry h w = Return (Some o, err) w1 →
  err = None
  ∧ (OpenTelemetry.traceEnabled o = true ↔ Getenv h "OTEL_TRACE_ENABLED" = "true")
  ∧ (OpenTelemetry.metricsEnabled o = true ↔ Getenv h "OTEL_METRICS_ENABLED" = "true")
  ∧ (is_Some (OpenTelemetry.traceProvider o)
     ↔ Getenv h "OTEL_TRACE_ENABLED" = "true")
  ∧ (is_Some (OpenTelemetry.meterProvider o)
     ↔ Getenv h "OTEL_METRICS_ENABLED" = "true").
Proof.
  unfold Interface.NewTelemetry. case_decide; [|done].
  intros Hnew. simpl in Hnew.
  apply NewOpenTelemetry_success in Hnew as (Herr & Ht & Hm & Htp & Hmp).
  rewrite Ht, Hm, Htp, Hmp, !bool_decide_eq_true. done.
Qed.

Lemma NewTelemetry_flags_witness :
  OpenTelemetry.traceEnabled
    (OpenTelemetry.mkOpenTelemetry (mkTracer "unknown-service")
       (mkMeter "unknown-service" (λ _, None)) None None false false) = true
  ↔ Getenv (quiet_host {[ "OTEL_TRACE_ENABLED" := "TRUE" ]}) "OTEL_TRACE_ENABLED"
    = "true".
Proof.
  refine (proj1 (proj2 (NewTelemetry_flags
            (quiet_host {[ "OTEL_TRACE_ENABLED" := "TRUE" ]}) (world0 0) _ _ None _))).
  vm_compute. reflexivity.
Defined.

(** ** Resolving the selector *)

(** [getTelemetryType] answers the flat backend exactly when the
    selector is not empty and its lower-case form is "appinsights" or
    "applicationinsights"; in every other case, the empty selector and
    every unknown one included, it answers the streaming backend.  The
    two copies of the function agree. *)
Theorem getTelemetryType_resolution (ToLower : string → string) (h : Host) :
  (Interface.getTelemetryType ToLower h = "appinsights"
   ↔ Getenv h "TELEMETRY_TYPE" ≠ ""
     ∧ ToLower (Getenv h "TELEMETRY_TYPE") ∈ ["appinsights"; "applicationinsights"])
  ∧ (Interface.getTelemetryType ToLower h ≠ "appinsights"
     → Interface.getTelemetryType ToLower h = "opentelemetry")
  ∧ LegacyInterface.getTelemetryType ToLower h = Interface.getTelemetryType ToLower h.
Proof.
  unfold Interface.getTelemetryType, LegacyInterface.getTelemetryType.
  split; [|split; [|done]].
  - repeat case_decide; split; try done; try (intros [? ?]; done).
    intros [_ Hai]. exfalso.
    repeat match goal with
           | H : _ ∈ _ |- _ => apply list_elem_of_In in H; simpl in H
           end.
    intuition congruence.
  - repeat case_decide; done.
Qed.

(** ** The first Application Insights client *)

(** [NewTelemetryAppInsights] always returns a client struct whose
    [client] field is set, even for an empty key, so its three posting
    methods never fault.  [PostMetrics] and [PostEvent] submit one item
    exactly when telemetry-enabled is true; [PostTrace] submits one,
    with the message prefixed by service and host name, exactly when
    trace-enabled and telemetry-enabled are both true.  On the zero
    struct of [GetTelemetryAppInsights], whose client is nil, the three
    methods do nothing, so they do not fault either. *)
Theorem TelemetryAppInsights_posting
    (appInsightsKey hostName serviceName : string)
    (traceEnabled telemetryEnabled : bool) (w : World)
    (name message : string) (value : float64)
    (severity : contracts.SeverityLevel) (properties : gmap string string)
    (w2 : World) :
  (∃ tai w1,
     TelemetryAppInsights.NewTelemetryAppInsights appInsightsKey hostName serviceName
       traceEnabled telemetryEnabled w = Return (Some tai, None) w1
     ∧ submissions w1 = submissions w
     ∧ is_Some (TelemetryAppInsights.client tai)
     ∧ (is_Some (TelemetryAppInsights.appInsights tai) ↔ appInsightsKey ≠ "")
     ∧ TelemetryAppInsights.PostMetrics tai name value w2 =
         Return tt (if telemetryEnabled
                    then set_tracked (λ l, l ++ [MetricTelemetry name value]) w2
                    else w2)
     ∧ TelemetryAppInsights.PostEvent tai name properties w2 =
         Return tt (if telemetryEnabled
                    then set_tracked (λ l, l ++ [EventTelemetry name properties]) w2
                    else w2)
     ∧ TelemetryAppInsights.PostTrace tai message severity properties w2 =
         Return tt (if traceEnabled && telemetryEnabled
                    then set_tracked (λ l, l ++
                           [TraceTelemetry (serviceName +:+ "_" +:+ hostName
                                            +:+ "_" +:+ message)
                              severity properties]) w2
                    else w2))
  ∧ TelemetryAppInsights.PostMetrics TelemetryAppInsights.GetTelemetryAppInsights
      name value w2 = Return tt w2
  ∧ TelemetryAppInsights.PostEvent TelemetryAppInsights.GetTelemetryAppInsights
      name properties w2 = Return tt w2
  ∧ TelemetryAppInsights.PostTrace TelemetryAppInsights.GetTelemetryAppInsights
      message severity properties w2 = Return tt w2.
Proof.
  split; [|done].
  unfold TelemetryAppInsights.NewTelemetryAppInsights, Log_Warn, Log. run.
  case_decide; do 2 eexists; (split; [reflexivity|]); simpl;
    (split; [done|]); (split; [by eexists|]);
    (split; [rewrite is_Some_alt; naive_solver|]);
    unfold TelemetryAppInsights.PostMetrics, TelemetryAppInsights.PostEvent,
      TelemetryAppInsights.PostTrace; simpl;
    by destruct traceEnabled, telemetryEnabled.
Qed.

(** ** Shutdown through the package *)

(** [Shutdown] of the package never faults: it attempts the shutdown of
    the tracer provider and of the meter provider that are registered
    globally, of those only, the second whatever the first returned, and
    it makes no submission. *)
Theorem package_Shutdown_attempts_registered (ctx : Context) (w : World) :
  ∃ w1, telemetry.Shutdown ctx w = Return tt w1
        ∧ shutdowns w1 = shutdowns w
            ++ (kind <$> option_list (otel_TracerProvider w))
            ++ (kind <$> option_list (otel_MeterProvider w))
        ∧ submissions w1 = submissions w
        ∧ spans w1 = spans w.
Proof.
  unfold telemetry.Shutdown, Provider_Shutdown, Log_Error, Log. run.
  destruct (otel_TracerProvider w) as [tp|] eqn:Ht,
           (otel_MeterProvider w) as [mp|] eqn:Hm; simpl;
    rewrite ?Hm; simpl;
    try destruct (ShutdownResult tp); simpl; rewrite ?Hm; simpl;
    try destruct (ShutdownResult mp);
    eexists; (split; [reflexivity|]); simpl;
    by rewrite ?app_nil_r, <- ?app_assoc.
Qed.

(** The struct that [newOpenTelemetry] of opentelemetry.go returns with
    both kinds enabled holds no provider, yet both providers were made
    and registered globally.  So [Shutdown] of the struct faults, while
    [Shutdown] of the package, from the same world, attempts the
    shutdown of both. *)
Theorem legacy_providers_are_only_registered
    (h : Host) (serviceName traceEndpoint metricEndpoint : string)
    (ctx : Context) (w : World) :
  resource_New h = None → otlptracegrpc_New h = None → otlpmetricgrpc_New h = None →
  ∃ o w1 w2,
    LegacyOpenTelemetry.newOpenTelemetry h serviceName traceEndpoint metricEndpoint
      true true w = Return (Some o, None) w1
    ∧ LegacyOpenTelemetry.traceProvider o = None
    ∧ LegacyOpenTelemetry.meterProvider o = None
    ∧ otel_TracerProvider w1
      = Some (mkProvider TracerProvider traceEndpoint (tracerShutdown h))
    ∧ otel_MeterProvider w1
      = Some (mkProvider MeterProvider metricEndpoint (meterShutdown h))
    ∧ LegacyOpenTelemetry.Shutdown o ctx w1 = Panic nil_dereference
    ∧ telemetry.Shutdown ctx w1 = Return tt w2
    ∧ shutdowns w2 = shutdowns w ++ [TracerProvider; MeterProvider].
Proof.
  intros Hres Htr Hme.
  unfold LegacyOpenTelemetry.newOpenTelemetry. run. rewrite Hres, Htr, Hme.
  assert (Hsd : ∃ w2,
    telemetry.Shutdown ctx
      (set_otel_MeterProvider
         (Some (mkProvider MeterProvider metricEndpoint (meterShutdown h)))
         (set_otel_TracerProvider
            (Some (mkProvider TracerProvider traceEndpoint (tracerShutdown h))) w))
    = Return tt w2
    ∧ shutdowns w2 = shutdowns w ++ [TracerProvider; MeterProvider]).
  { unfold telemetry.Shutdown, Provider_Shutdown, Log_Error, Log. run. simpl.
    destruct (tracerShutdown h); simpl; destruct (meterShutdown h);
      eexists; (split; [reflexivity|]); simpl; by rewrite <- app_assoc. }
  destruct Hsd as (w2 & Hrun & Hsh).
  eexists _, _, w2. split; [reflexivity|]. repeat split; done.
Qed.

Lemma legacy_providers_are_only_registered_witness :
  ∃ o w1 w2,
    LegacyOpenTelemetry.newOpenTelemetry (quiet_host ∅) "svc" "a:4317" "b:4317"
      true true (world0 0) = Return (Some o, None) w1
    ∧ LegacyOpenTelemetry.traceProvider o = None
    ∧ LegacyOpenTelemetry.meterProvider o = None
    ∧ otel_TracerProvider w1
      = Some (mkProvider TracerProvider "a:4317" (tracerShutdown (quiet_host ∅)))
    ∧ otel_MeterProvider w1
      = Some (mkProvider MeterProvider "b:4317" (meterShutdown (quiet_host ∅)))
    ∧ LegacyOpenTelemetry.Shutdown o Background w1 = Panic nil_dereference
    ∧ telemetry.Shutdown Background w1 = Return tt w2
    ∧ shutdowns w2 = shutdowns (world0 0) ++ [TracerProvider; MeterProvider].
Proof.
  apply (legacy_providers_are_only_registered (quiet_host ∅) "svc" "a:4317" "b:4317"
           Background (world0 0)); reflexivity.
Defined.

(** ** The earlier streaming backend *)

(** In opentelemetry.go the three tracking methods are counters, not
    spans, and their gate is the metrics flag of the package, not a
    field of the struct and not the trace flag.  With the flag on, and
    the counter made, each asks for its counter and adds 1 with its
    attributes; with the flag off each only writes an info entry to the
    logger.  No span is started or exported either way. *)
Theorem legacy_tracking_is_counting
    (pkg : telemetry.vars) (o : LegacyOpenTelemetry.OpenTelemetry) (ctx : Context)
    (method url responseCode dependencyType target name : string)
    (duration : Duration) (success : bool) (w : World) :
  let count counter attrs :=
    Return tt
      (if telemetry.metricsEnabled pkg
       then set_meterCalls (λ l, l ++ [Float64Counter counter;
                                        Add counter float64_1 attrs]) w
       else set_logged (λ l, l ++
              [mkEntry InfoLevel
                 "Failed to create metric instrument, metrics not enabled for this service"
                 []]) w) in
  (∀ n, instrumentErr (LegacyOpenTelemetry.meter o) n = None) →
  LegacyOpenTelemetry.TrackRequest pkg o ctx method url duration responseCode w
    = count "http.requests"
        [attribute.String "http.method" method;
         attribute.String "http.url" url;
         attribute.Int64 "http.duration_ms" (Milliseconds duration);
         attribute.String "http.status_code" responseCode]
  ∧ LegacyOpenTelemetry.TrackDependency pkg o ctx dependencyType target duration success w
    = count "dependency.calls"
        [attribute.String "dependency.type" dependencyType;
         attribute.String "dependency.target" target;
         attribute.Int64 "dependency.duration_ms" (Milliseconds duration);
         attribute.Bool "dependency.success" success]
  ∧ LegacyOpenTelemetry.TrackAvailability pkg o ctx name duration success w
    = count "availability.tests"
        [attribute.String "availability.test" name;
         attribute.Int64 "availability.duration_ms" (Milliseconds duration);
         attribute.Bool "availability.success" success].
Proof.
  intros count Herr. unfold count.
  unfold LegacyOpenTelemetry.TrackRequest, LegacyOpenTelemetry.TrackDependency,
    LegacyOpenTelemetry.TrackAvailability, LegacyOpenTelemetry.RecordMetric,
    Meter_instrument, Meter_call, Log_Info, Log.
  run. rewrite !Herr.
  destruct (telemetry.metricsEnabled pkg); simpl; [|done].
  unfold set_meterCalls. simpl. by rewrite <- !app_assoc.
Qed.

Lemma legacy_tracking_is_counting_witness :
  LegacyOpenTelemetry.TrackRequest (package true true) (legacy false false) Background
    "GET" "/x" 150000000 "200" (world0 0)
  = Return tt
      (set_meterCalls (λ l, l ++
         [Float64Counter "http.requests";
          Add "http.requests" float64_1
            [attribute.String "http.method" "GET";
             attribute.String "http.url" "/x";
             attribute.Int64 "http.duration_ms" (Milliseconds 150000000);
             attribute.String "http.status_code" "200"]]) (world0 0)).
Proof.
  exact (proj1 (legacy_tracking_is_counting (package true true) (legacy false false)
           Background "GET" "/x" "200" "sql" "db" "ping" 150000000 true (world0 0)
           (λ _, eq_refl))).
Defined.

(** The trace side of opentelemetry.go has no gate and no effect on
    spans where open_telemetry.go has both.  [LogError] only writes to
    the logger: the span of the context is left alone.  [SetUser] and
    [SetSession] tag the recording span of the context whatever the
    flags are.  [PostEvent] does nothing at all, and [PostTrace] always
    writes one info entry "Event recorded" whose attributes begin with
    the message; the severity is not part of it. *)
Theorem legacy_trace_side
    (range : gmap string string → list (string * string))
    (o : LegacyOpenTelemetry.OpenTelemetry) (ctx : Context)
    (message severity name id : string) (err : error) (attrs : list KeyValue)
    (properties : gmap string string) (w : World) :
  LegacyOpenTelemetry.LogError o ctx message err attrs w
    = Return tt (set_logged (λ l, l ++ [mkEntry ErrorLevel message
                                          [zap_Error err; zap_Any "attributes" attrs]]) w)
  ∧ LegacyOpenTelemetry.PostEvent range o name properties w = Return tt w
  ∧ LegacyOpenTelemetry.PostTrace range o message severity properties w
    = Return tt (set_logged (λ l, l ++
        [mkEntry InfoLevel "Event recorded"
           [zap_Any "attributes"
              (attribute.String "message" message
               :: ((λ kv, attribute.String kv.1 kv.2) <$> range properties))]]) w)
  ∧ (recordingIn w (SpanFromContext ctx) = true →
     ∃ n d, SpanFromContext ctx = recordingSpan n ∧ spans w !! n = Some d
            ∧ LegacyOpenTelemetry.SetUser o ctx id w =
                Return tt (set_spans (λ l,
                  <[n := accept (SetAttributes [attribute.String "user.id" id]) d]> l) w)
            ∧ LegacyOpenTelemetry.SetSession o ctx id w =
                Return tt (set_spans (λ l,
                  <[n := accept (SetAttributes [attribute.String "session.id" id]) d]> l)
                  w)).
Proof.
  split; [done|]. split; [done|]. split; [done|].
  intros Hrec. pose proof Hrec as Hrec'. unfold recordingIn in Hrec'.
  destruct (SpanFromContext ctx) as [n| |] eqn:Hctx; try done.
  destruct (spans w !! n) as [d|] eqn:Hd; [|done].
  exists n, d. split; [done|]. split; [done|].
  unfold LegacyOpenTelemetry.SetUser, LegacyOpenTelemetry.SetSession,
    Span_SetAttributes.
  rewrite Hctx. tag_current_span Hrec Hrec.
  by rewrite !(Span_call_recording n d).
Qed.

Lemma legacy_trace_side_witness :
  ∃ n d, SpanFromContext (ContextWithSpan Background (recordingSpan 0)) = recordingSpan n
         ∧ spans (mkWorld 0 [mkSpanData "op" noopSpan 0 true []] [] [] [] [] [] None None)
             !! n = Some d
         ∧ LegacyOpenTelemetry.SetUser (legacy false false)
             (ContextWithSpan Background (recordingSpan 0)) "u1"
             (mkWorld 0 [mkSpanData "op" noopSpan 0 true []] [] [] [] [] [] None None)
           = Return tt (set_spans (λ l,
               <[n := accept (SetAttributes [attribute.String "user.id" "u1"]) d]> l)
               (mkWorld 0 [mkSpanData "op" noopSpan 0 true []] [] [] [] [] [] None None))
         ∧ LegacyOpenTelemetry.SetSession (legacy false false)
             (ContextWithSpan Background (recordingSpan 0)) "u1"
             (mkWorld 0 [mkSpanData "op" noopSpan 0 true []] [] [] [] [] [] None None)
           = Return tt (set_spans (λ l,
               <[n := accept (SetAttributes [attribute.String "session.id" "u1"]) d]> l)
               (mkWorld 0 [mkSpanData "op" noopSpan 0 true []] [] [] [] [] [] None None)).
Proof.
  exact (proj2 (proj2 (proj2 (legacy_trace_side (λ _, []) (legacy false false)
           (ContextWithSpan Background (recordingSpan 0)) "m" "s" "n" "u1" None [] ∅
           (mkWorld 0 [mkSpanData "op" noopSpan 0 true []] [] [] [] [] [] None None))))
           eq_refl).
Defined.

(** ** [init] of the first version *)

(** [initProvider] always returns, and changes nothing but the two
    registered providers, each only when its kind is enabled. *)
Lemma initProvider_frame h pkg w :
  ∃ err w1, telemetry.initProvider h pkg w = Return err w1
    ∧ w1 = set_otel_MeterProvider (otel_MeterProvider w1)
             (set_otel_TracerProvider (otel_TracerProvider w1) w)
    ∧ (telemetry.traceEnabled pkg = false → otel_TracerProvider w1 = otel_TracerProvider w)
    ∧ (telemetry.metricsEnabled pkg = false → otel_MeterProvider w1 = otel_MeterProvider w).
Proof.
  unfold telemetry.initProvider. run.
  destruct (resource_New h); [do 2 eexists; split; [reflexivity|]; by destruct w|].
  destruct (telemetry.traceEnabled pkg); [destruct (otlptracegrpc_New h)|];
    try (do 2 eexists; split; [reflexivity|]; by destruct w);
    (destruct (telemetry.metricsEnabled pkg); [destruct (otlpmetricgrpc_New h)|]);
    do 2 eexists; (split; [reflexivity|]); by destruct w.
Qed.

(** [init] always returns, whatever the environment and whatever fails
    on the way, and it makes no submission and starts no span.  The two
    flags are on exactly when their variable is the string "true"; the
    service name it settles on is never empty, and the tracer and the
    meter are named by it.  A provider is registered only for a kind
    whose flag is on. *)
Theorem init_resolves_the_package (h : Host) (w : World) :
  ∃ pkg ins w1,
    Init.init h w = Return (pkg, ins) w1
    ∧ submissions w1 = submissions w ∧ spans w1 = spans w
    ∧ (telemetry.traceEnabled pkg = true ↔ Getenv h "OTEL_TRACE_ENABLED" = "true")
    ∧ (telemetry.metricsEnabled pkg = true ↔ Getenv h "OTEL_METRICS_ENABLED" = "true")
    ∧ telemetry.serviceName pkg ≠ ""
    ∧ telemetry.serviceName pkg
      = (if decide (Getenv h "SERVICE_NAME" = "") then "unknown-service"
         else Getenv h "SERVICE_NAME")
    ∧ tracerName (telemetry.tracer ins) = telemetry.serviceName pkg
    ∧ meterName (telemetry.meter ins) = telemetry.serviceName pkg
    ∧ (telemetry.traceEnabled pkg = false →
       otel_TracerProvider w1 = otel_TracerProvider w)
    ∧ (telemetry.metricsEnabled pkg = false →
       otel_MeterProvider w1 = otel_MeterProvider w).
Proof.
  unfold Init.init, TelemetryAppInsights.NewTelemetryAppInsights,
    Log_Error, Log_Warn, Log.
  run.
  destruct (decide (Getenv h "SERVICE_NAME" = "")) as [Hs|Hs];
    destruct (decide (Getenv h "INSTRUMENT" = "APPINSIGHTS"));
    destruct (decide (Getenv h "APPINSIGHTS_INSTRUMENTATIONKEY" ≠ ""));
    destruct (Hostname h) as [hn [herr|]];
    (lazymatch goal with
     | |- context [telemetry.initProvider h ?p ?w0] =>
         destruct (initProvider_frame h p w0)
           as (err & w1 & Hrun1 & Hw1 & Htp & Hmp); rewrite Hrun1
     end);
    destruct err;
    do 3 eexists; (split; [reflexivity|]); simpl;
    rewrite Hw1; simpl; rewrite ?bool_decide_eq_true;
    repeat split; try done;
    try (intros Hf; by rewrite <- (Htp Hf));
    try (intros Hf; by rewrite <- (Hmp Hf)).
Qed.

(** ** The three versions side by side *)

(** For equal flags, tracer and meter, the functions of the package, the
    methods of opentelemetry.go and the methods of open_telemetry.go do
    the same on spans and counters: [EndSpan], [AddEvent], [LogInfo] and
    [LogWarning] are the same computation in each version, and so are
    [StartSpan] and [RecordMetric] of the package and of
    open_telemetry.go.  [StartSpan] and [RecordMetric] of opentelemetry.go
    differ from them in one point only: when the feature is disabled
    they return the same result and also write an info entry to the
    logger. *)
Theorem versions_agree
    (pkg : telemetry.vars) (ins : telemetry.instruments)
    (lo : LegacyOpenTelemetry.OpenTelemetry) (o : OpenTelemetry.OpenTelemetry)
    (ctx : Context) (name message : string) (span : trace_Span)
    (value : float64) (attrs : list KeyValue) (w : World) :
  telemetry.traceEnabled pkg = OpenTelemetry.traceEnabled o →
  telemetry.metricsEnabled pkg = OpenTelemetry.metricsEnabled o →
  telemetry.tracer ins = OpenTelemetry.tracer o →
  telemetry.meter ins = OpenTelemetry.meter o →
  LegacyOpenTelemetry.tracer lo = OpenTelemetry.tracer o →
  LegacyOpenTelemetry.meter lo = OpenTelemetry.meter o →
  telemetry.StartSpan pkg ins ctx name w = OpenTelemetry.StartSpan o ctx name w
  ∧ telemetry.RecordMetric pkg ins ctx name value attrs w
    = OpenTelemetry.RecordMetric o ctx name value attrs w
  ∧ telemetry.EndSpan span w = OpenTelemetry.EndSpan o span w
  ∧ LegacyOpenTelemetry.EndSpan lo span w = OpenTelemetry.EndSpan o span w
  ∧ telemetry.AddEvent span name attrs w = OpenTelemetry.AddEvent o span name attrs w
  ∧ LegacyOpenTelemetry.AddEvent lo span name attrs w
    = OpenTelemetry.AddEvent o span name attrs w
  ∧ LegacyOpenTelemetry.LogInfo lo ctx message attrs w
    = OpenTelemetry.LogInfo o ctx message attrs w
  ∧ LegacyOpenTelemetry.LogWarning lo ctx message attrs w
    = OpenTelemetry.LogWarning o ctx message attrs w
  ∧ LegacyOpenTelemetry.StartSpan pkg lo ctx name w
    = (if OpenTelemetry.traceEnabled o
       then OpenTelemetry.StartSpan o ctx name w
       else Return (ctx, None)
              (set_logged (λ l, l ++
                 [mkEntry InfoLevel
                    "Failed to start span, trace not enabled for this service" []]) w))
  ∧ LegacyOpenTelemetry.RecordMetric pkg lo ctx name value attrs w
    = (if OpenTelemetry.metricsEnabled o
       then OpenTelemetry.RecordMetric o ctx name value attrs w
       else Return tt
              (set_logged (λ l, l ++
                 [mkEntry InfoLevel
                    "Failed to create metric instrument, metrics not enabled for this service"
                    []]) w)).
Proof.
  intros Ht Hm Htr Hme Hltr Hlme.
  unfold telemetry.StartSpan, telemetry.RecordMetric,
    LegacyOpenTelemetry.StartSpan, LegacyOpenTelemetry.RecordMetric,
    OpenTelemetry.StartSpan, OpenTelemetry.RecordMetric.
  rewrite Ht, Hm, Htr, Hme, Hltr, Hlme.
  destruct (OpenTelemetry.traceEnabled o), (OpenTelemetry.metricsEnabled o);
    repeat split.
Qed.

Lemma versions_agree_witness :
  LegacyOpenTelemetry.StartSpan (package false false) (legacy false false)
    Background "op" (world0 0)
  = (if OpenTelemetry.traceEnabled (streaming false false)
     then OpenTelemetry.StartSpan (streaming false false) Background "op" (world0 0)
     else Return (Background, None)
            (set_logged (λ l, l ++
               [mkEntry InfoLevel
                  "Failed to start span, trace not enabled for this service" []])
               (world0 0))).
Proof.
  refine (proj1 (proj2 (proj2 (proj2 (proj2 (proj2 (proj2 (proj2 (proj2
    (versions_agree (package false false)
       (telemetry.mkInstruments (mkTracer "svc") (mkMeter "svc" (λ _, None)))
       (legacy false false) (streaming false false) Background "op" "m" None 1 []
       (world0 0) eq_refl eq_refl eq_refl eq_refl eq_refl eq_refl)))))))))).
Defined.
